(** * Data Research Engineer: the front-end job client (frontend/js/app.js)

    A shallow embedding of the [ResearchApp] class: the JavaScript values
    that reach it from the server (parsed JSON), the coercions the code
    relies on ([!x], [a || b], [x >= 0.8], template literals), the DOM
    fields the class writes, and its asynchronous handlers cut at their
    [await] points and run by an event loop of pending timers and
    in-flight requests. *)

From Stdlib Require Import String Ascii List ZArith QArith Qround Bool Lia Lqa.
From Stdlib Require Import DecimalString DecimalPos.
Import ListNotations.
Open Scope string_scope.
Set Warnings "-register-all".

(** ** JavaScript values *)

(** Numbers.  A finite double is modelled by the rational it denotes and a
    decimal literal of the source ([0.8], [0.6], [2000]) by its exact value;
    [NaN] and the two infinities complete the type, so that the numeric
    coercions are total. *)
Inductive number : Type :=
| NaN
| PosInf
| NegInf
| Fin (q : Q).

(** The kinds of value that have a prototype, each named after its
    constructor: [Boolean], [Number], [String], [Array], [Object]. *)
Inductive kind : Type :=
| KBoolean
| KNumber
| KString
| KArray
| KObject.

(** The built-in objects a property read finds on a prototype chain: a
    built-in function (a method such as [toString], or the constructor),
    by its name, and, under [__proto__], the prototype object itself. *)
Inductive builtin : Type :=
| BFunction (name : string)
| BPrototype (k : kind).

(** Values as [JSON.parse] builds them, [undefined] for what is missing,
    and the built-in objects that a property read can return.  The
    property list of an object is in the order in which the engine
    enumerates its own keys ([Object.keys]).  Strings are held in UTF-8. *)
Inductive value : Type :=
| VUndefined
| VNull
| VBool (b : bool)
| VNum (n : number)
| VStr (s : string)
| VArr (elems : list value)
| VObj (props : list (string * value))
| VBuiltin (b : builtin).

Definition VInt (z : Z) : value := VNum (Fin (inject_Z z)).

(** Exceptions carry their [message]. *)
Inductive exn : Type :=
| Exn (message : string).

Definition exn_message (e : exn) : string :=
  match e with Exn m => m end.

Inductive result (A : Type) : Type :=
| Ok (a : A)
| Throw (e : exn).
Arguments Ok {A} a.
Arguments Throw {A} e.

Definition rbind {A B : Type} (r : result A) (k : A -> result B) : result B :=
  match r with
  | Ok a => k a
  | Throw e => Throw e
  end.

Notation "'let?' x ':=' r 'in' k" := (rbind r (fun x => k))
  (at level 10, x name, r at level 100, k at level 200).

(** Handlers run in a state monad with exceptions: what a statement wrote
    before a later one throws stays written. *)
Definition M (S A : Type) : Type := S -> result A * S.

Definition ret {S A : Type} (a : A) : M S A := fun s => (Ok a, s).

Definition bind {S A B : Type} (m : M S A) (k : A -> M S B) : M S B :=
  fun s => match m s with
           | (Ok a, s') => k a s'
           | (Throw e, s') => (Throw e, s')
           end.

Definition throw {S A : Type} (e : exn) : M S A := fun s => (Throw e, s).

Definition lift_result {S A : Type} (r : result A) : M S A := fun s => (r, s).

Definition modify {S : Type} (f : S -> S) : M S unit := fun s => (Ok tt, f s).

(** [try { body } catch (error) { handler }]. *)
Definition try_catch {S A : Type} (body : M S A) (handler : exn -> M S A) : M S A :=
  fun s => match body s with
           | (Ok a, s') => (Ok a, s')
           | (Throw e, s') => handler e s'
           end.

Notation "x <- m ;; k" := (bind m (fun x => k))
  (at level 61, m at next level, right associativity).
Notation "m ;; k" := (bind m (fun _ => k))
  (at level 61, right associativity).

(** Built-ins of the ECMAScript engine and of the browser that the class
    calls and does not define.  Every theorem below holds for each engine. *)
Class Engine : Type := {
  (** [Number::toString] for the finite numbers that are not integers
      below 10^21 (those are printed by [number_to_string] itself). *)
  number_to_text : Q -> string;
  (** [StringToNumber], the numeric value of a string. *)
  string_to_number : string -> number;
  (** [parseInt(s)]. *)
  parseInt : string -> number;
  (** [Number.prototype.toFixed(2)]. *)
  toFixed2 : number -> string;
  (** The message of the [TypeError] the engine raises, from a description
      of the failed operation. *)
  type_error_message : string -> string;
  (** The text a built-in function prints as, from its name. *)
  function_text : string -> string;
  (** A property read on a built-in function, from its name and the key. *)
  function_member : string -> string -> value;
  (** Whether the CSS parser of the browser takes a text as a value of
      [width], for the texts that [css_percentage] below does not settle. *)
  css_width_accepts : string -> bool
}.

Section Client.
Context `{Engine}.

Definition type_error {A : Type} (what : string) : result A :=
  Throw (Exn (type_error_message what)).

Definition int_to_string (z : Z) : string :=
  NilZero.string_of_int (Z.to_int z).

Definition nat_to_string (n : nat) : string :=
  int_to_string (Z.of_nat n).

Definition is_integer (q : Q) : bool :=
  (Qden (Qred q) =? 1)%positive.

(** [Number::toString]. *)
Definition number_to_string (n : number) : string :=
  match n with
  | NaN => "NaN"
  | PosInf => "Infinity"
  | NegInf => "-Infinity"
  | Fin q =>
      if is_integer q && (Z.abs (Qnum (Qred q)) <? 10 ^ 21)%Z
      then int_to_string (Qnum (Qred q))
      else number_to_text q
  end.

Fixpoint join (sep : string) (l : list string) : string :=
  match l with
  | [] => ""
  | [s] => s
  | s :: rest => s ++ sep ++ join sep rest
  end.

(** [ToString] of a built-in object: a function prints as its source
    text; [Object.prototype] prints as any object, [Array.prototype] as the
    empty array, and the three others as the primitive they wrap ([0],
    [false], the empty string). *)
Definition builtin_to_string (b : builtin) : string :=
  match b with
  | BFunction name => function_text name
  | BPrototype KObject => "[object Object]"
  | BPrototype KNumber => "0"
  | BPrototype KBoolean => "false"
  | BPrototype KString | BPrototype KArray => ""
  end.

(** [ToString], as a template literal [`${v}`] applies it.  An array prints
    its elements joined by commas, [null] and [undefined] elements as
    nothing.  An object prints as [Object.prototype.toString] prints it;
    an object that holds a key [toString] of its own, for which the engine
    throws instead, is outside the model. *)
Fixpoint to_string (v : value) : string :=
  match v with
  | VUndefined => "undefined"
  | VNull => "null"
  | VBool true => "true"
  | VBool false => "false"
  | VNum n => number_to_string n
  | VStr s => s
  | VArr elems =>
      join "," (map (fun e => match e with
                              | VUndefined | VNull => ""
                              | _ => to_string e
                              end) elems)
  | VObj _ => "[object Object]"
  | VBuiltin b => builtin_to_string b
  end.

(** [ToBoolean]: [!v] is [negb (truthy v)]. *)
Definition truthy (v : value) : bool :=
  match v with
  | VUndefined | VNull => false
  | VBool b => b
  | VNum NaN => false
  | VNum (Fin q) => negb (Qeq_bool q 0)
  | VNum _ => true
  | VStr s => negb (s =? "")
  | VArr _ | VObj _ | VBuiltin _ => true
  end.

(** [a || b]. *)
Definition js_or (a b : value) : value :=
  if truthy a then a else b.

(** [ToNumber]; arrays and objects go through their string form, the two
    prototypes that wrap [0] and [false] through that primitive. *)
Definition to_number (v : value) : number :=
  match v with
  | VUndefined => NaN
  | VNull => Fin 0
  | VBool true => Fin 1
  | VBool false => Fin 0
  | VNum n => n
  | VStr s => string_to_number s
  | VBuiltin (BPrototype KNumber) | VBuiltin (BPrototype KBoolean) => Fin 0
  | VArr _ | VObj _ | VBuiltin _ => string_to_number (to_string v)
  end.

(** [a <= b] on numbers: false as soon as one side is [NaN]. *)
Definition num_le (a b : number) : bool :=
  match a, b with
  | NaN, _ | _, NaN => false
  | NegInf, _ | _, PosInf => true
  | PosInf, _ | _, NegInf => false
  | Fin x, Fin y => Qle_bool x y
  end.

Definition num_lt (a b : number) : bool :=
  match a, b with
  | NaN, _ | _, NaN => false
  | PosInf, _ | _, NegInf => false
  | NegInf, _ | _, PosInf => true
  | Fin x, Fin y => negb (Qle_bool y x)
  end.

(** [v >= c] and [v > c] against a numeric literal [c]. *)
Definition js_ge (v : value) (c : number) : bool := num_le c (to_number v).
Definition js_gt (v : value) (c : number) : bool := num_lt c (to_number v).

(** [a === 'literal']. *)
Definition strict_eq_string (v : value) (s : string) : bool :=
  match v with
  | VStr s' => s' =? s
  | _ => false
  end.

Fixpoint lookup (key : string) (props : list (string * value)) : option value :=
  match props with
  | [] => None
  | (k, v) :: rest => if k =? key then Some v else lookup key rest
  end.

(** The index [i < n] whose decimal form is [key], if any. *)
Definition array_index (key : string) (n : nat) : option nat :=
  find (fun i => nat_to_string i =? key) (seq 0 n).

Definition char_at (s : string) (i : nat) : value :=
  match String.get i s with
  | Some c => VStr (String c EmptyString)
  | None => VUndefined
  end.

(** The prototypes, by the names of their members (ECMAScript 2024 with
    its annex for browsers).  Every member listed is a function of that
    name; [constructor], [__proto__] and the two aliases of [String] come
    apart below.  [length] is an own property of strings and arrays. *)
Definition object_prototype_methods : list string :=
  ["hasOwnProperty"; "isPrototypeOf"; "propertyIsEnumerable";
   "toLocaleString"; "toString"; "valueOf";
   "__defineGetter__"; "__defineSetter__"; "__lookupGetter__"; "__lookupSetter__"].

Definition boolean_prototype_methods : list string :=
  ["toString"; "valueOf"].

Definition number_prototype_methods : list string :=
  ["toExponential"; "toFixed"; "toLocaleString"; "toPrecision"; "toString"; "valueOf"].

Definition string_prototype_methods : list string :=
  ["at"; "charAt"; "charCodeAt"; "codePointAt"; "concat"; "endsWith"; "includes";
   "indexOf"; "isWellFormed"; "lastIndexOf"; "localeCompare"; "match"; "matchAll";
   "normalize"; "padEnd"; "padStart"; "repeat"; "replace"; "replaceAll"; "search";
   "slice"; "split"; "startsWith"; "substring"; "toLocaleLowerCase";
   "toLocaleUpperCase"; "toLowerCase"; "toString"; "toUpperCase"; "toWellFormed";
   "trim"; "trimEnd"; "trimStart"; "valueOf";
   "substr"; "anchor"; "big"; "blink"; "bold"; "fixed"; "fontcolor"; "fontsize";
   "italics"; "link"; "small"; "strike"; "sub"; "sup"].

Definition array_prototype_methods : list string :=
  ["at"; "concat"; "copyWithin"; "entries"; "every"; "fill"; "filter"; "find";
   "findIndex"; "findLast"; "findLastIndex"; "flat"; "flatMap"; "forEach";
   "includes"; "indexOf"; "join"; "keys"; "lastIndexOf"; "map"; "pop"; "push";
   "reduce"; "reduceRight"; "reverse"; "shift"; "slice"; "some"; "sort"; "splice";
   "toLocaleString"; "toReversed"; "toSorted"; "toSpliced"; "toString"; "unshift";
   "values"; "with"].

Definition constructor_name (k : kind) : string :=
  match k with
  | KBoolean => "Boolean"
  | KNumber => "Number"
  | KString => "String"
  | KArray => "Array"
  | KObject => "Object"
  end.

Definition prototype_methods (k : kind) : list string :=
  match k with
  | KBoolean => boolean_prototype_methods
  | KNumber => number_prototype_methods
  | KString => string_prototype_methods
  | KArray => array_prototype_methods
  | KObject => object_prototype_methods
  end.

(** The member that a value of kind [k] finds on its prototype chain under
    a name: the accessor [__proto__] gives the prototype of the value,
    [constructor] its constructor; [trimLeft] and [trimRight] are the
    functions [trimStart] and [trimEnd]; then the methods of its own
    prototype and those of [Object.prototype]. *)
Definition prototype_member (k : kind) (key : string) : option builtin :=
  if key =? "__proto__" then Some (BPrototype k)
  else if key =? "constructor" then Some (BFunction (constructor_name k))
  else if match k with KString => key =? "trimLeft" | _ => false end
    then Some (BFunction "trimStart")
  else if match k with KString => key =? "trimRight" | _ => false end
    then Some (BFunction "trimEnd")
  else if existsb (String.eqb key) (prototype_methods k)
          || existsb (String.eqb key) object_prototype_methods
    then Some (BFunction key)
  else None.

(** What a value of kind [k] reads under a name that is not one of its own
    properties. *)
Definition inherited (k : kind) (key : string) : value :=
  match prototype_member k key with
  | Some b => VBuiltin b
  | None => VUndefined
  end.

(** A property read on a prototype object: [Array.prototype] and
    [String.prototype] have the length 0; the prototype of
    [Object.prototype] is [null], that of the others is
    [Object.prototype]; the rest is what the values of that kind inherit. *)
Definition prototype_get (k : kind) (key : string) : value :=
  if key =? "__proto__" then
    match k with
    | KObject => VNull
    | _ => VBuiltin (BPrototype KObject)
    end
  else if (key =? "length")
          && match k with KString | KArray => true | _ => false end
  then VInt 0
  else inherited k key.

(** Property read [v[key]] / [v.key]: the own properties of the value
    ([length] and the indices of arrays and strings, the keys of an
    object), then what it inherits.  Reading a property of [null] or
    [undefined] throws.  The length and the indices of a string count its
    bytes, which are its characters in ASCII text.  (The methods the class
    calls, [map], [slice], [forEach], [toFixed] and [trim], are modelled
    where they are called.) *)
Definition get (v : value) (key : string) : result value :=
  match v with
  | VUndefined => type_error ("undefined." ++ key)
  | VNull => type_error ("null." ++ key)
  | VBool _ => Ok (inherited KBoolean key)
  | VNum _ => Ok (inherited KNumber key)
  | VStr s =>
      if key =? "length" then Ok (VInt (Z.of_nat (String.length s)))
      else match array_index key (String.length s) with
           | Some i => Ok (char_at s i)
           | None => Ok (inherited KString key)
           end
  | VArr elems =>
      if key =? "length" then Ok (VInt (Z.of_nat (List.length elems)))
      else match array_index key (List.length elems) with
           | Some i => Ok (nth i elems VUndefined)
           | None => Ok (inherited KArray key)
           end
  | VObj props =>
      match lookup key props with
      | Some x => Ok x
      | None => Ok (inherited KObject key)
      end
  | VBuiltin (BPrototype k) => Ok (prototype_get k key)
  | VBuiltin (BFunction name) => Ok (function_member name key)
  end.

(** [Object.keys(v)]; a built-in object has no enumerable property. *)
Definition object_keys (v : value) : result (list value) :=
  match v with
  | VUndefined | VNull => type_error "Object.keys"
  | VBool _ | VNum _ | VBuiltin _ => Ok []
  | VStr s => Ok (map (fun i => VStr (nat_to_string i)) (seq 0 (String.length s)))
  | VArr elems => Ok (map (fun i => VStr (nat_to_string i)) (seq 0 (List.length elems)))
  | VObj props => Ok (map (fun kv => VStr (fst kv)) props)
  end.

(** ** Quality tiers: [getQualityColor] *)

Inductive ColorTier : Type := high | medium | low | unknown.

(** The colour the rendering layer shows for each tier. *)
Definition color_of_tier (t : ColorTier) : string :=
  match t with
  | high => "#28a745"
  | medium => "#ffc107"
  | low => "#dc3545"
  | unknown => "#666"
  end.

Definition getQualityColor (score : value) : string :=
  if negb (truthy score) then "#666"
  else if js_ge score (Fin 0.8) then "#28a745"
  else if js_ge score (Fin 0.6) then "#ffc107"
  else "#dc3545".

(** ** Rendering a table: [createTableHTML], [createTableCard] *)

Fixpoint map_result {A B : Type} (f : A -> result B) (l : list A) : result (list B) :=
  match l with
  | [] => Ok []
  | x :: rest =>
      let? y := f x in
      let? ys := map_result f rest in
      Ok (y :: ys)
  end.

(** The method calls of the class.  Their receivers are values parsed
    from JSON, read under the fixed keys of the class; a built-in object is
    never one (it comes from a read [row[header]] only, and is tested and
    printed there). *)

(** [v.map(f)]: of the values parsed from JSON only arrays have a [map]. *)
Definition js_map {B : Type} (v : value) (f : value -> result B) : result (list B) :=
  match v with
  | VArr elems => map_result f elems
  | _ => type_error "map is not a function"
  end.

(** [v.slice(0, n)], on the values that have a [slice]. *)
Definition js_slice (v : value) (n : nat) : result value :=
  match v with
  | VArr elems => Ok (VArr (firstn n elems))
  | VStr s => Ok (VStr (substring 0 n s))
  | _ => type_error "slice is not a function"
  end.

(** The markup [createTableHTML] returns, by its interpolations: the
    placeholder paragraph, or the table with the text of each [<th>] and,
    for each [<tr>] of the body, the text of each [<td>]. *)
Inductive TableHTML : Type :=
| NoData
| DataTable (ths : list string) (trs : list (list string)).

(** The text of one cell, [`${row[header] || ''}`]. *)
Definition cell_text (row header : value) : result string :=
  let? c := get row (to_string header) in
  Ok (to_string (js_or c (VStr ""))).

Definition createTableHTML (table : value) : result TableHTML :=
  let? data := get table "data" in
  if negb (truthy data) then Ok NoData else
  let? len := get data "length" in
  if negb (truthy len) then Ok NoData else
  let? columns := get table "columns" in
  let? headers :=
    (if truthy columns then Ok columns
     else let? row0 := get data "0" in
          let? keys := object_keys row0 in
          Ok (VArr keys)) in
  let? rows := js_slice data 50 in
  let? ths := js_map headers (fun header => Ok (to_string header)) in
  let? trs := js_map rows (fun row => js_map headers (cell_text row)) in
  Ok (DataTable ths trs).

Definition preview_note : string := "<p><em>Showing first 100 rows only</em></p>".

(** The card [createTableCard] builds, by the interpolations of its
    [innerHTML] template, in their order. *)
Record TableCard : Type := {
  card_number : string;
  card_name : string;
  card_row_count : string;
  card_col_count : string;
  card_category : string;
  card_quality_color : string;
  card_quality : string;
  card_table : TableHTML;
  card_note : string
}.

Definition createTableCard (table : value) (index : nat) : result TableCard :=
  let? score := get table "quality_score" in
  let qualityColor := getQualityColor score in
  let? name := get table "name" in
  let? row_count := get table "row_count" in
  let? col_count := get table "col_count" in
  let? category := get table "category" in
  let? html := createTableHTML table in
  let? preview_only := get table "preview_only" in
  Ok {| card_number := nat_to_string (index + 1);
        card_name := to_string (js_or name (VStr "Untitled"));
        card_row_count := to_string row_count;
        card_col_count := to_string col_count;
        card_category := to_string (js_or category (VStr "General Data"));
        card_quality_color := qualityColor;
        card_quality := to_string (js_or score (VStr "N/A"));
        card_table := html;
        card_note := if truthy preview_only then preview_note else "" |}.

(** ** The DOM nodes the class holds, by the fields it writes *)

Record FormView : Type := {
  research_topic_value : string;
  pdf_count_value : string;
  manual_pdf_files : list string;
  start_research_disabled : bool;
  research_topic_disabled : bool;
  pdf_count_disabled : bool;
  btn_text_display : string;
  btn_loader_display : string
}.

(** [progressText] is the value assigned to [textContent], and
    [progressFill_width] the text of the last assignment to [style.width]
    that took effect. *)
Record ProgressView : Type := {
  progressSection_display : string;
  progressFill_width : string;
  progressText : value;
  foundPdfs_innerHTML : string
}.

(** A child of the tables container: the "no tables" placeholder card or a
    table card. *)
Inductive TableNode : Type :=
| Placeholder
| Card (c : TableCard).

Record ResultsView : Type := {
  welcomeFeatures_display : string;
  resultsSection_display : string;
  resultsStats : string;
  (** The two interpolations of the summary template, when it was written. *)
  researchSummary : option (string * string);
  tablesContainer : list TableNode
}.

Record DOM : Type := {
  form : FormView;
  progress : ProgressView;
  results : ResultsView
}.

Definition set_form (f : FormView -> FormView) (d : DOM) : DOM :=
  {| form := f (form d); progress := progress d; results := results d |}.

Definition set_progress (f : ProgressView -> ProgressView) (d : DOM) : DOM :=
  {| form := form d; progress := f (progress d); results := results d |}.

Definition set_results (f : ResultsView -> ResultsView) (d : DOM) : DOM :=
  {| form := form d; progress := progress d; results := f (results d) |}.

Definition disableForm (disabled : bool) : DOM -> DOM :=
  set_form (fun f =>
    {| research_topic_value := research_topic_value f;
       pdf_count_value := pdf_count_value f;
       manual_pdf_files := manual_pdf_files f;
       start_research_disabled := disabled;
       research_topic_disabled := disabled;
       pdf_count_disabled := disabled;
       btn_text_display := if disabled then "none" else "inline";
       btn_loader_display := if disabled then "inline" else "none" |}).

Definition set_progressSection_display (s : string) : DOM -> DOM :=
  set_progress (fun p =>
    {| progressSection_display := s;
       progressFill_width := progressFill_width p;
       progressText := progressText p;
       foundPdfs_innerHTML := foundPdfs_innerHTML p |}).

Definition showProgress (d : DOM) : DOM :=
  disableForm true (set_progressSection_display "block" d).

Definition hideProgress (d : DOM) : DOM :=
  disableForm false (set_progressSection_display "none" d).

(** *** Assigning to [style.width]

    The setter parses the text as a value of the CSS property and leaves
    the declaration as it was when the text is not one. *)

Definition is_digit (c : ascii) : bool :=
  let n := nat_of_ascii c in ((48 <=? n) && (n <=? 57))%nat.

Definition is_letter (c : ascii) : bool :=
  let n := nat_of_ascii c in
  (((65 <=? n) && (n <=? 90)) || ((97 <=? n) && (n <=? 122)))%nat.

Fixpoint all_chars (p : ascii -> bool) (s : string) : bool :=
  match s with
  | EmptyString => true
  | String c rest => p c && all_chars p rest
  end.

(** The text in front of a final [%]. *)
Fixpoint percent_body (text : string) : option string :=
  match text with
  | EmptyString => None
  | String c EmptyString => if (c =? "%")%char then Some EmptyString else None
  | String c rest => option_map (String c) (percent_body rest)
  end.

(** What the grammar of CSS settles by itself of a text that ends in [%].
    Digits and [%] are one percentage token, and [width] takes a
    percentage that is not negative: accepted.  A minus sign, digits that
    are not all zeros and [%] are a negative percentage: not accepted.
    Letters and [%] are an identifier and a stray delimiter, no value of
    any property: not accepted ([undefined%], [null%], [NaN%],
    [Infinity%]).  Any other text is left to the parser of the browser. *)
Definition css_percentage (text : string) : option bool :=
  match percent_body text with
  | None | Some EmptyString => None
  | Some (String c rest as body) =>
      if all_chars is_digit body then Some true
      else if all_chars is_letter body then Some false
      else if (c =? "-")%char && negb (rest =? "") && all_chars is_digit rest
              && negb (all_chars (Ascii.eqb "0") rest)
      then Some false
      else None
  end.

(** [style.width = text], from the declaration [old]: the empty text
    removes the declaration. *)
Definition set_style_width (text old : string) : string :=
  if text =? "" then ""
  else match css_percentage text with
       | Some true => text
       | Some false => old
       | None => if css_width_accepts text then text else old
       end.

Definition updateProgress (percentage message : value) : DOM -> DOM :=
  set_progress (fun p =>
    {| progressSection_display := progressSection_display p;
       progressFill_width :=
         set_style_width (to_string percentage ++ "%") (progressFill_width p);
       progressText := message;
       foundPdfs_innerHTML := foundPdfs_innerHTML p |}).

(** U+1F4C4, the page emoji of the list of found PDFs, in UTF-8. *)
Definition page_emoji : string :=
  String (ascii_of_nat 240) (String (ascii_of_nat 159)
    (String (ascii_of_nat 147) (String (ascii_of_nat 132) EmptyString))).

Definition set_foundPdfs_innerHTML (s : string) : DOM -> DOM :=
  set_progress (fun p =>
    {| progressSection_display := progressSection_display p;
       progressFill_width := progressFill_width p;
       progressText := progressText p;
       foundPdfs_innerHTML := s |}).

Definition displayFoundPdfs (pdfs : value) : M DOM unit :=
  items <- lift_result (js_map pdfs (fun pdf =>
             let? title := get pdf "title" in
             let? label := (if truthy title then Ok title else get pdf "url") in
             Ok (page_emoji ++ " " ++ to_string label))) ;;
  modify (set_foundPdfs_innerHTML
            ("<strong>Found PDFs:</strong><br>" ++ join "<br>" items)).

Definition set_welcomeFeatures_display (s : string) : DOM -> DOM :=
  set_results (fun r =>
    {| welcomeFeatures_display := s;
       resultsSection_display := resultsSection_display r;
       resultsStats := resultsStats r;
       researchSummary := researchSummary r;
       tablesContainer := tablesContainer r |}).

Definition set_resultsSection_display (s : string) : DOM -> DOM :=
  set_results (fun r =>
    {| welcomeFeatures_display := welcomeFeatures_display r;
       resultsSection_display := s;
       resultsStats := resultsStats r;
       researchSummary := researchSummary r;
       tablesContainer := tablesContainer r |}).

Definition set_resultsStats (s : string) : DOM -> DOM :=
  set_results (fun r =>
    {| welcomeFeatures_display := welcomeFeatures_display r;
       resultsSection_display := resultsSection_display r;
       resultsStats := s;
       researchSummary := researchSummary r;
       tablesContainer := tablesContainer r |}).

Definition set_researchSummary (s : option (string * string)) : DOM -> DOM :=
  set_results (fun r =>
    {| welcomeFeatures_display := welcomeFeatures_display r;
       resultsSection_display := resultsSection_display r;
       resultsStats := resultsStats r;
       researchSummary := s;
       tablesContainer := tablesContainer r |}).

Definition update_tablesContainer (f : list TableNode -> list TableNode) : DOM -> DOM :=
  set_results (fun r =>
    {| welcomeFeatures_display := welcomeFeatures_display r;
       resultsSection_display := resultsSection_display r;
       resultsStats := resultsStats r;
       researchSummary := researchSummary r;
       tablesContainer := f (tablesContainer r) |}).

(** ** Showing the results: [displayTables], [displayResults] *)

Fixpoint for_each {St : Type} (f : value -> nat -> M St unit)
    (elems : list value) (index : nat) : M St unit :=
  match elems with
  | [] => ret tt
  | x :: rest => f x index ;; for_each f rest (S index)
  end.

(** [v.forEach(f)]: only arrays have a [forEach]. *)
Definition js_forEach {St : Type} (v : value) (f : value -> nat -> M St unit) : M St unit :=
  match v with
  | VArr elems => for_each f elems 0
  | _ => lift_result (type_error "forEach is not a function")
  end.

Definition displayTables (tables : value) : M DOM unit :=
  modify (update_tablesContainer (fun _ => [])) ;;
  len <- lift_result (get tables "length") ;;
  if negb (truthy len) then
    modify (update_tablesContainer (fun _ => [Placeholder]))
  else
    js_forEach tables (fun table index =>
      tableCard <- lift_result (createTableCard table index) ;;
      modify (update_tablesContainer (fun nodes => (nodes ++ [Card tableCard])%list))).

(** [results.table_count || results.tables?.length || 0], the count of the
    statistics line. *)
Definition stats_count (results : value) : result value :=
  let? table_count := get results "table_count" in
  if truthy table_count then Ok table_count else
  let? tables := get results "tables" in
  let? len := (match tables with
               | VUndefined | VNull => Ok VUndefined
               | _ => get tables "length"
               end) in
  Ok (js_or len (VInt 0)).

(** [v.toFixed(2)]: only numbers have a [toFixed]. *)
Definition js_toFixed2 (v : value) : result string :=
  match v with
  | VNum n => Ok (toFixed2 n)
  | _ => type_error "toFixed is not a function"
  end.

Definition displayResults (results : value) : M DOM unit :=
  modify hideProgress ;;
  modify (set_welcomeFeatures_display "none") ;;
  modify (set_resultsSection_display "block") ;;
  count <- lift_result (stats_count results) ;;
  modify (set_resultsStats (to_string count ++ " tables extracted")) ;;
  processing_time <- lift_result (get results "processing_time") ;;
  (if truthy processing_time then
     seconds <- lift_result (js_toFixed2 processing_time) ;;
     table_count <- lift_result (get results "table_count") ;;
     modify (set_researchSummary
               (Some (seconds, to_string (js_or table_count (VInt 0)))))
   else ret tt) ;;
  tables <- lift_result (get results "tables") ;;
  displayTables (js_or tables (VArr [])).

(** ** The application object and the event loop *)

(** What a pending timer runs when it fires. *)
Inductive callback : Type :=
| PollResearch   (* () => this.trackResearchProgress() *)
| PollPdf        (* () => this.trackPdfProcessing() *)
| HideProgress.  (* () => this.hideProgress() *)

Record timer : Type := {
  timer_callback : callback;
  timer_delay : Z
}.

Inductive request_body : Type :=
| NoBody
| JsonBody (v : value)          (* JSON.stringify(v) *)
| FormBody (pdf_file : string). (* a FormData with the field pdf_file *)

Record request : Type := {
  req_method : string;
  req_url : string;
  req_body : request_body
}.

(** The handler suspended at its [await fetch(...)]. *)
Inductive continuation : Type :=
| AfterResearchStart
| AfterPdfUpload
| AfterResearchStatus
| AfterPdfStatus.

Record exchange : Type := {
  sent : request;
  awaiting : continuation
}.

Record App : Type := {
  apiBase : string;
  currentJobId : value;
  dom : DOM;
  timers : list timer;
  inflight : list exchange;
  alerts : list string;
  console : list (string * exn)
}.

Definition with_dom (f : DOM -> DOM) (st : App) : App :=
  {| apiBase := apiBase st; currentJobId := currentJobId st; dom := f (dom st);
     timers := timers st; inflight := inflight st;
     alerts := alerts st; console := console st |}.

Definition set_currentJobId (id : value) (st : App) : App :=
  {| apiBase := apiBase st; currentJobId := id; dom := dom st;
     timers := timers st; inflight := inflight st;
     alerts := alerts st; console := console st |}.

Definition set_timers (l : list timer) (st : App) : App :=
  {| apiBase := apiBase st; currentJobId := currentJobId st; dom := dom st;
     timers := l; inflight := inflight st;
     alerts := alerts st; console := console st |}.

Definition set_inflight (l : list exchange) (st : App) : App :=
  {| apiBase := apiBase st; currentJobId := currentJobId st; dom := dom st;
     timers := timers st; inflight := l;
     alerts := alerts st; console := console st |}.

(** [alert(text)]. *)
Definition alert (text : string) (st : App) : App :=
  {| apiBase := apiBase st; currentJobId := currentJobId st; dom := dom st;
     timers := timers st; inflight := inflight st;
     alerts := (alerts st ++ [text])%list; console := console st |}.

(** [console.error(label, error)]. *)
Definition console_error (label : string) (error : exn) (st : App) : App :=
  {| apiBase := apiBase st; currentJobId := currentJobId st; dom := dom st;
     timers := timers st; inflight := inflight st;
     alerts := alerts st; console := (console st ++ [(label, error)])%list |}.

(** [setTimeout(callback, delay)]. *)
Definition setTimeout (c : callback) (delay : Z) (st : App) : App :=
  set_timers (timers st ++ [{| timer_callback := c; timer_delay := delay |}])%list st.

(** [fetch(url, {method, body})], up to the [await]: the request leaves and
    the caller is suspended until the response event. *)
Definition fetch (method url : string) (b : request_body) (k : continuation)
    (st : App) : App :=
  set_inflight
    (inflight st ++ [{| sent := {| req_method := method; req_url := url; req_body := b |};
                        awaiting := k |}])%list st.

(** A state-passing step of the DOM run inside the application. *)
Definition liftD {A : Type} (m : M DOM A) : M App A :=
  fun st => let (r, d) := m (dom st) in (r, with_dom (fun _ => d) st).

(** What comes back for a request: the [fetch] promise rejects (no
    connection), or resolves to a response with its status and a body that
    [response.json()] parses or rejects.  The two awaits are one event. *)
Inductive response_body : Type :=
| Json (v : value)
| NotJson (e : exn).

Record response : Type := {
  http_status : Z;
  body : response_body
}.

Inductive fetch_outcome : Type :=
| Rejected (e : exn)
| Responded (r : response).

(** [response.ok]. *)
Definition ok (r : response) : bool :=
  (200 <=? http_status r)%Z && (http_status r <=? 299)%Z.

Definition await_fetch (o : fetch_outcome) : result response :=
  match o with
  | Rejected e => Throw e
  | Responded r => Ok r
  end.

Definition json (r : response) : result value :=
  match body r with
  | Json v => Ok v
  | NotJson e => Throw e
  end.

Definition hideProgressAfterDelay : App -> App :=
  setTimeout HideProgress 3000.

(** *** Research jobs *)

(** The white space and the line terminators that [trim] strips, by their
    bytes in UTF-8.  One byte: U+0009 to U+000D and U+0020.  Two bytes:
    U+00A0.  Three bytes: U+1680, U+2000 to U+200A, U+2028, U+2029, U+202F,
    U+205F, U+3000 and U+FEFF. *)
Definition white_space1 (c : ascii) : bool :=
  let n := nat_of_ascii c in
  (((9 <=? n) && (n <=? 13)) || (n =? 32))%nat.

Definition white_space2 (c1 c2 : ascii) : bool :=
  ((nat_of_ascii c1 =? 194) && (nat_of_ascii c2 =? 160))%nat.

Definition white_space3 (c1 c2 c3 : ascii) : bool :=
  let n1 := nat_of_ascii c1 in
  let n2 := nat_of_ascii c2 in
  let n3 := nat_of_ascii c3 in
  (((n1 =? 225) && (n2 =? 154) && (n3 =? 128))
   || ((n1 =? 226) && (n2 =? 128)
       && (((128 <=? n3) && (n3 <=? 138)) || (n3 =? 168) || (n3 =? 169) || (n3 =? 175)))
   || ((n1 =? 226) && (n2 =? 129) && (n3 =? 159))
   || ((n1 =? 227) && (n2 =? 128) && (n3 =? 128))
   || ((n1 =? 239) && (n2 =? 187) && (n3 =? 191)))%nat.

(** The string is one white-space character. *)
Definition is_white_space (s : string) : bool :=
  match s with
  | String c1 EmptyString => white_space1 c1
  | String c1 (String c2 EmptyString) => white_space2 c1 c2
  | String c1 (String c2 (String c3 EmptyString)) => white_space3 c1 c2 c3
  | _ => false
  end.

Fixpoint trim_start (s : string) : string :=
  match s with
  | EmptyString => EmptyString
  | String c1 rest1 =>
      if white_space1 c1 then trim_start rest1
      else match rest1 with
           | EmptyString => s
           | String c2 rest2 =>
               if white_space2 c1 c2 then trim_start rest2
               else match rest2 with
                    | EmptyString => s
                    | String c3 rest3 =>
                        if white_space3 c1 c2 c3 then trim_start rest3 else s
                    end
           end
  end.

Fixpoint trim_end (s : string) : string :=
  match s with
  | EmptyString => EmptyString
  | String c rest =>
      let kept := String c (trim_end rest) in
      if is_white_space kept then EmptyString else kept
  end.

(** [s.trim()]. *)
Definition trim (s : string) : string := trim_end (trim_start s).

(** [trackResearchProgress], up to its [await fetch]. *)
Definition trackResearchProgress (st : App) : App :=
  if negb (truthy (currentJobId st)) then st
  else fetch "GET" (apiBase st ++ "/research/status/" ++ to_string (currentJobId st))
             NoBody AfterResearchStatus st.

(** [trackResearchProgress], from the response on. *)
Definition trackResearchProgress_resume (o : fetch_outcome) : M App unit :=
  try_catch
    (response <- lift_result (await_fetch o) ;;
     status <- lift_result (json response) ;;
     progress <- lift_result (get status "progress") ;;
     message <- lift_result (get status "message") ;;
     modify (with_dom (updateProgress progress message)) ;;
     found_pdfs <- lift_result (get status "found_pdfs") ;;
     (if truthy found_pdfs then
        len <- lift_result (get found_pdfs "length") ;;
        if js_gt len (Fin 0) then liftD (displayFoundPdfs found_pdfs) else ret tt
      else ret tt) ;;
     state <- lift_result (get status "status") ;;
     if strict_eq_string state "completed" then
       results <- lift_result (get status "results") ;;
       liftD (displayResults results)
     else if strict_eq_string state "failed" then
       error <- lift_result (get status "error") ;;
       modify (with_dom (updateProgress (VInt 0)
                 (VStr ("Research failed: " ++ to_string error)))) ;;
       modify hideProgressAfterDelay
     else
       modify (setTimeout PollResearch 2000))
    (fun error =>
       modify (console_error "Progress tracking failed:" error) ;;
       modify (with_dom (updateProgress (VInt 0)
                 (VStr ("Tracking error: " ++ exn_message error)))) ;;
       modify hideProgressAfterDelay).

(** [startAutomatedResearch], up to its [await fetch]. *)
Definition startAutomatedResearch (st : App) : App :=
  let topic := research_topic_value (form (dom st)) in
  let maxPdfs := parseInt (pdf_count_value (form (dom st))) in
  if trim topic =? "" then alert "Please enter a research topic" st
  else
    let st := with_dom showProgress st in
    let st := with_dom (updateProgress (VInt 5) (VStr "Starting research...")) st in
    fetch "POST" (apiBase st ++ "/research/start")
          (JsonBody (VObj [("topic", VStr topic); ("max_pdfs", VNum maxPdfs)]))
          AfterResearchStart st.

(** [startAutomatedResearch], from the response on. *)
Definition startAutomatedResearch_resume (o : fetch_outcome) : M App unit :=
  try_catch
    (response <- lift_result (await_fetch o) ;;
     (if negb (ok response) then
        throw (Exn ("HTTP error! status: " ++ int_to_string (http_status response)))
      else ret tt) ;;
     result <- lift_result (json response) ;;
     job_id <- lift_result (get result "job_id") ;;
     modify (set_currentJobId job_id) ;;
     modify trackResearchProgress)
    (fun error =>
       modify (console_error "Research failed:" error) ;;
       modify (with_dom (updateProgress (VInt 0)
                 (VStr ("Error: " ++ exn_message error)))) ;;
       modify hideProgressAfterDelay).

(** *** PDF-processing jobs *)

(** [trackPdfProcessing], up to its [await fetch]. *)
Definition trackPdfProcessing (st : App) : App :=
  if negb (truthy (currentJobId st)) then st
  else fetch "GET" (apiBase st ++ "/pdf/status/" ++ to_string (currentJobId st))
             NoBody AfterPdfStatus st.

(** [trackPdfProcessing], from the response on. *)
Definition trackPdfProcessing_resume (o : fetch_outcome) : M App unit :=
  try_catch
    (response <- lift_result (await_fetch o) ;;
     status <- lift_result (json response) ;;
     progress <- lift_result (get status "progress") ;;
     message <- lift_result (get status "message") ;;
     modify (with_dom (updateProgress progress message)) ;;
     state <- lift_result (get status "status") ;;
     if strict_eq_string state "completed" then
       tables <- lift_result (get status "tables") ;;
       processing_time <- lift_result (get status "processing_time") ;;
       table_count <- lift_result (get status "table_count") ;;
       liftD (displayResults (VObj [("tables", tables);
                                    ("processing_time", processing_time);
                                    ("table_count", table_count)]))
     else if strict_eq_string state "failed" then
       error <- lift_result (get status "error") ;;
       modify (with_dom (updateProgress (VInt 0)
                 (VStr ("Processing failed: " ++ to_string error)))) ;;
       modify hideProgressAfterDelay
     else
       modify (setTimeout PollPdf 1000))
    (fun error =>
       modify (console_error "Processing tracking failed:" error) ;;
       modify (with_dom (updateProgress (VInt 0)
                 (VStr ("Tracking error: " ++ exn_message error)))) ;;
       modify hideProgressAfterDelay).

(** [processManualPdf], up to its [await fetch]. *)
Definition processManualPdf (st : App) : App :=
  match manual_pdf_files (form (dom st)) with
  | [] => st
  | file :: _ =>
      let st := with_dom showProgress st in
      let st := with_dom (updateProgress (VInt 10) (VStr "Uploading PDF...")) st in
      fetch "POST" (apiBase st ++ "/pdf/upload") (FormBody file) AfterPdfUpload st
  end.

(** [processManualPdf], from the response on. *)
Definition processManualPdf_resume (o : fetch_outcome) : M App unit :=
  try_catch
    (response <- lift_result (await_fetch o) ;;
     (if negb (ok response) then
        throw (Exn ("Upload failed: " ++ int_to_string (http_status response)))
      else ret tt) ;;
     result <- lift_result (json response) ;;
     job_id <- lift_result (get result "job_id") ;;
     modify (set_currentJobId job_id) ;;
     modify (with_dom (updateProgress (VInt 30) (VStr "Processing PDF..."))) ;;
     modify trackPdfProcessing)
    (fun error =>
       modify (console_error "Manual upload failed:" error) ;;
       modify (with_dom (updateProgress (VInt 0)
                 (VStr ("Upload error: " ++ exn_message error)))) ;;
       modify hideProgressAfterDelay).

(** *** The event loop *)

Definition remove_nth {A : Type} (i : nat) (l : list A) : list A :=
  (firstn i l ++ skipn (S i) l)%list.

(** The state a handler leaves; no exception escapes the handlers above. *)
Definition exec {A : Type} (m : M App A) (st : App) : App := snd (m st).

Definition fire (c : callback) : App -> App :=
  match c with
  | PollResearch => trackResearchProgress
  | PollPdf => trackPdfProcessing
  | HideProgress => with_dom hideProgress
  end.

Definition resume (k : continuation) (o : fetch_outcome) : App -> App :=
  match k with
  | AfterResearchStart => exec (startAutomatedResearch_resume o)
  | AfterPdfUpload => exec (processManualPdf_resume o)
  | AfterResearchStatus => exec (trackResearchProgress_resume o)
  | AfterPdfStatus => exec (trackPdfProcessing_resume o)
  end.

(** What the browser delivers to the page: the two listeners of
    [bindEvents] that start a job, a timer that fires, the outcome of a
    request.  (A click on the upload button with no file selected leaves
    the state as it is, as the disabled button does.) *)
Inductive event : Type :=
| SubmitResearchForm
| ClickUpload
| TimerFires (i : nat)
| ResponseArrives (i : nat) (o : fetch_outcome).

Definition step (st : App) (ev : event) : option App :=
  match ev with
  | SubmitResearchForm => Some (startAutomatedResearch st)
  | ClickUpload => Some (processManualPdf st)
  | TimerFires i =>
      match nth_error (timers st) i with
      | Some t => Some (fire (timer_callback t) (set_timers (remove_nth i (timers st)) st))
      | None => None
      end
  | ResponseArrives i o =>
      match nth_error (inflight st) i with
      | Some x => Some (resume (awaiting x) o (set_inflight (remove_nth i (inflight st)) st))
      | None => None
      end
  end.

Fixpoint steps (st : App) (evs : list event) : option App :=
  match evs with
  | [] => Some st
  | ev :: rest =>
      match step st ev with
      | Some st' => steps st' rest
      | None => None
      end
  end.

End Client.

(** ** Reading what was rendered *)




(** Neither [null] nor [undefined]. *)
Definition present (v : value) : bool :=
  match v with
  | VUndefined | VNull => false
  | _ => true
  end.


(** The value a property read gives when it does not throw. *)
Definition prop `{Engine} (v : value) (key : string) : value :=
  match get v key with
  | Ok x => x
  | Throw _ => VUndefined
  end.



(** ** Reading the event loop *)

Definition is_poll (t : timer) : bool :=
  match timer_callback t with
  | PollResearch | PollPdf => true
  | HideProgress => false
  end.

(** The pending timers that will poll. *)
Definition poll_timers (st : App) : list timer := filter is_poll (timers st).






(** [m] does not change what [view] reads of the state. *)
Definition keeps {St A X : Type} (view : St -> X) (m : M St A) : Prop :=
  forall s, view (snd (m s)) = view s.


(** A response to a status request, with its HTTP status and JSON body. *)
Definition status_response (code : Z) (payload : value) : fetch_outcome :=
  Responded {| http_status := code; body := Json payload |}.



(** ** The page as it loads, and what the user enters *)

Definition initial_dom : DOM :=
  {| form := {| research_topic_value := "";
                pdf_count_value := "5";
                manual_pdf_files := [];
                start_research_disabled := false;
                research_topic_disabled := false;
                pdf_count_disabled := false;
                btn_text_display := "";
                btn_loader_display := "none" |};
     progress := {| progressSection_display := "none";
                    progressFill_width := "";
                    progressText := VStr "Initializing...";
                    foundPdfs_innerHTML := "" |};
     results := {| welcomeFeatures_display := "";
                   resultsSection_display := "none";
                   resultsStats := "";
                   researchSummary := None;
                   tablesContainer := [] |} |}.

(** [new ResearchApp()]. *)
Definition initial_app : App :=
  {| apiBase := "http://localhost:8000";
     currentJobId := VNull;
     dom := initial_dom;
     timers := [];
     inflight := [];
     alerts := [];
     console := [] |}.

(** The user types a topic, selects a PDF file. *)
Definition type_topic (topic : string) : App -> App :=
  with_dom (set_form (fun f =>
    {| research_topic_value := topic;
       pdf_count_value := pdf_count_value f;
       manual_pdf_files := manual_pdf_files f;
       start_research_disabled := start_research_disabled f;
       research_topic_disabled := research_topic_disabled f;
       pdf_count_disabled := pdf_count_disabled f;
       btn_text_display := btn_text_display f;
       btn_loader_display := btn_loader_display f |})).

Definition select_file (file : string) : App -> App :=
  with_dom (set_form (fun f =>
    {| research_topic_value := research_topic_value f;
       pdf_count_value := pdf_count_value f;
       manual_pdf_files := [file];
       start_research_disabled := start_research_disabled f;
       research_topic_disabled := research_topic_disabled f;
       pdf_count_disabled := pdf_count_disabled f;
       btn_text_display := btn_text_display f;
       btn_loader_display := btn_loader_display f |})).

(** ** Sample payloads *)

(** A status payload of a job that is still running. *)
Definition running_payload (percentage message : value) : value :=
  VObj [("status", VStr "in_progress");
        ("progress", percentage);
        ("message", message)].

(** The answer to a submission. *)
Definition job_created (id : string) : fetch_outcome :=
  status_response 200 (VObj [("job_id", VStr id)]).

(** What the server answers for a job it does not know, with status 404. *)
Definition not_found_payload : value :=
  VObj [("detail", VStr "Job not found")].

(** A status payload of a completed PDF job, at 40 percent. *)
Definition completed_payload : value :=
  VObj [("status", VStr "completed");
        ("progress", VInt 40);
        ("message", VStr "Done");
        ("tables", VArr []);
        ("table_count", VInt 0);
        ("results", VObj [("table_count", VInt 0); ("tables", VArr [])])].

(** A research job just submitted; then accepted as [job-1] and polled
    for the first time. *)
Definition submitted_app `{Engine} : App :=
  startAutomatedResearch (type_topic "solar cells" initial_app).

Definition polling_app `{Engine} : App :=
  resume AfterResearchStart (job_created "job-1") (set_inflight [] submitted_app).


(** One round of the polling loop of that job. *)
Definition sample_round : list event :=
  [ResponseArrives 0 (job_created "job-1");
   ResponseArrives 0 (status_response 200 (running_payload (VInt 40) (VStr "Searching")));
   TimerFires 0].


Definition sample_row : value :=
  VObj [("year", VInt 2024); ("papers", VInt 7)].

(** A table that reports 120 rows, carries them all, names no columns and
    has no [preview_only] flag. *)
Definition table120 : value :=
  VObj [("name", VStr "Results");
        ("row_count", VInt 120);
        ("col_count", VInt 2);
        ("data", VArr (repeat sample_row 120))].



(** An engine to run the examples on.  It prints and parses integers only,
    prints a function as V8 does, knows no property of a built-in function
    and takes no text as a width but those the grammar settles; and no
    statement below depends on what it does elsewhere. *)
Definition sample_engine : Engine :=
  {| number_to_text := fun q =>
       int_to_string (Qnum q) ++ "/" ++ int_to_string (Zpos (Qden q));
     string_to_number := fun s =>
       match NilZero.int_of_string s with
       | Some i => Fin (inject_Z (Z.of_int i))
       | None => NaN
       end;
     parseInt := fun s =>
       match NilZero.int_of_string s with
       | Some i => Fin (inject_Z (Z.of_int i))
       | None => NaN
       end;
     toFixed2 := fun n =>
       match n with
       | Fin q =>
           let cents := Qfloor (q * 100 + (1 # 2)) in
           int_to_string (cents / 100) ++ "."
           ++ int_to_string (cents mod 100 / 10) ++ int_to_string (cents mod 10)
       | NaN => "NaN"
       | PosInf => "Infinity"
       | NegInf => "-Infinity"
       end;
     type_error_message := fun what => "TypeError: " ++ what;
     function_text := fun name => "function " ++ name ++ "() { [native code] }";
     function_member := fun _ _ => VUndefined;
     css_width_accepts := fun _ => false |}.

(** ** Further vocabulary *)



(** The cards of a list of tables, the first one at [index]. *)
Fixpoint render_all `{Engine} (tables : list value) (index : nat)
    : result (list TableCard) :=
  match tables with
  | [] => Ok []
  | table :: rest =>
      let? card := createTableCard table index in
      let? cards := render_all rest (S index) in
      Ok (card :: cards)
  end.

(** [P] holds after [m] when it held before. *)
Definition stable {St A : Type} (P : St -> Prop) (m : M St A) : Prop :=
  forall s, P s -> P (snd (m s)).

(** The three controls of the form are disabled together, and the loader
    of the button is shown exactly while they are. *)
Definition form_consistent (f : FormView) : Prop :=
  research_topic_disabled f = start_research_disabled f /\
  pdf_count_disabled f = start_research_disabled f /\
  (start_research_disabled f = true ->
     btn_text_display f = "none" /\ btn_loader_display f = "inline") /\
  (start_research_disabled f = false ->
     btn_text_display f <> "none" /\ btn_loader_display f = "none").

(** The timers the class sets: a research poll after 2000 ms, a PDF poll
    after 1000 ms, the hiding of the progress after 3000 ms. *)
Definition timer_ok (t : timer) : bool :=
  match timer_callback t with
  | PollResearch => (timer_delay t =? 2000)%Z
  | PollPdf => (timer_delay t =? 1000)%Z
  | HideProgress => (timer_delay t =? 3000)%Z
  end.

(** The four calls of the client: the two submissions, by [POST], and the
    two status reads, by [GET] and without a body. *)
Definition exchange_ok (base : string) (x : exchange) : bool :=
  match awaiting x with
  | AfterResearchStart =>
      (req_method (sent x) =? "POST") && (req_url (sent x) =? base ++ "/research/start")
      && match req_body (sent x) with JsonBody _ => true | _ => false end
  | AfterPdfUpload =>
      (req_method (sent x) =? "POST") && (req_url (sent x) =? base ++ "/pdf/upload")
      && match req_body (sent x) with FormBody _ => true | _ => false end
  | AfterResearchStatus =>
      (req_method (sent x) =? "GET")
      && prefix (base ++ "/research/status/") (req_url (sent x))
      && match req_body (sent x) with NoBody => true | _ => false end
  | AfterPdfStatus =>
      (req_method (sent x) =? "GET")
      && prefix (base ++ "/pdf/status/") (req_url (sent x))
      && match req_body (sent x) with NoBody => true | _ => false end
  end.


(** The event is the response to a status request of a research job. *)
Definition research_status_response (st : App) (ev : event) : bool :=
  match ev with
  | ResponseArrives i _ =>
      match nth_error (inflight st) i with
      | Some x => match awaiting x with AfterResearchStatus => true | _ => false end
      | None => false
      end
  | _ => false
  end.

(** The three invariants of the event loop, on a state of the application. *)

Definition timers_ok (st : App) : Prop := forallb timer_ok (timers st) = true.

Definition requests_ok (st : App) : Prop :=
  forallb (exchange_ok (apiBase st)) (inflight st) = true.

Definition form_ok (st : App) : Prop := form_consistent (form (dom st)).

(** A session at the page: a research is submitted and accepted, polled
    once at 40 percent, and its second poll fails in transport. *)
Definition sample_session : list event :=
  (SubmitResearchForm :: sample_round
   ++ [ResponseArrives 0 (Rejected (Exn "Failed to fetch"))])%list.

(** U+00A0, the no-break space, in UTF-8. *)
Definition no_break_space : string :=
  String (ascii_of_nat 194) (String (ascii_of_nat 160) EmptyString).

(** The string begins with a white-space character. *)
Definition starts_with_white_space (s : string) : bool :=
  match s with
  | EmptyString => false
  | String c1 rest1 =>
      white_space1 c1
      || match rest1 with
         | EmptyString => false
         | String c2 rest2 =>
             white_space2 c1 c2
             || match rest2 with
                | EmptyString => false
                | String c3 _ => white_space3 c1 c2 c3
                end
         end
  end.

(** The string is made of white-space characters only. *)
Fixpoint all_white_space (s : string) : bool :=
  match s with
  | EmptyString => true
  | String c1 rest1 =>
      if white_space1 c1 then all_white_space rest1
      else match rest1 with
           | EmptyString => false
           | String c2 rest2 =>
               if white_space2 c1 c2 then all_white_space rest2
               else match rest2 with
                    | EmptyString => false
                    | String c3 rest3 =>
                        white_space3 c1 c2 c3 && all_white_space rest3
                    end
           end
  end.


(** * Properties *)

(** ** The model at work *)

Example to_string_of_array :
  forall E : Engine, to_string (VArr [VInt 1; VNull; VStr "a"; VArr [VInt 2; VInt 3]]) = "1,,a,2,3".
Proof. intros E. reflexivity. Qed.

Example keys_of_sample_row :
  forall E : Engine, object_keys sample_row = Ok [VStr "year"; VStr "papers"].
Proof. intros E. reflexivity. Qed.

Example blank_topic_alerts :
  forall E : Engine,
    alerts (startAutomatedResearch (type_topic "   " initial_app))
    = ["Please enter a research topic"] /\
    inflight (startAutomatedResearch (type_topic "   " initial_app)) = [].
Proof. intros E. split; reflexivity. Qed.

(** A research job from the form to its results: submitted, accepted as
    [job-1], polled once at 40 percent, polled again and completed. *)
Example research_job_completes :
  forall E : Engine,
    exists st,
      steps (type_topic "solar cells" initial_app)
        (SubmitResearchForm :: sample_round
         ++ [ResponseArrives 0 (status_response 200 completed_payload)]) = Some st /\
      timers st = [] /\ inflight st = [] /\
      progressFill_width (progress (dom st)) = "40%" /\
      progressSection_display (progress (dom st)) = "none" /\
      resultsSection_display (results (dom st)) = "block" /\
      resultsStats (results (dom st)) = "0 tables extracted" /\
      tablesContainer (results (dom st)) = [Placeholder].
Proof.
  intros E. eexists. split; [vm_compute; reflexivity |].
  repeat split; reflexivity.
Qed.

(** ** Values *)

Section ValueFacts.
Context `{Engine}.

Lemma get_present (v : value) (key : string) :
  present v = true -> get v key = Ok (prop v key).
Proof.
  unfold prop. destruct v as [| | b | n | s | elems | props | [name | k]]; simpl;
    try discriminate; intros _; try reflexivity.
  - destruct (key =? "length"); [reflexivity |].
    destruct (array_index key (String.length s)); reflexivity.
  - destruct (key =? "length"); [reflexivity |].
    destruct (array_index key (List.length elems)); reflexivity.
  - destruct (lookup key props); reflexivity.
Qed.

Lemma get_Ok_present (v : value) (key : string) (x : value) :
  get v key = Ok x -> present v = true.
Proof. destruct v as [| | | | | | | []]; simpl; try reflexivity; discriminate. Qed.

Lemma truthy_present (v : value) : truthy v = true -> present v = true.
Proof. destruct v; simpl; try reflexivity; discriminate. Qed.



Lemma array_length (l : list value) :
  get (VArr l) "length" = Ok (VInt (Z.of_nat (List.length l))).
Proof. reflexivity. Qed.

Lemma truthy_length (l : list value) :
  truthy (VInt (Z.of_nat (List.length l))) = negb (Nat.eqb (List.length l) 0).
Proof.
  destruct l as [| x l]; [reflexivity |].
  unfold VInt, truthy. unfold Qeq_bool, inject_Z. simpl Qnum. simpl Qden.
  rewrite Z.mul_1_r. simpl (0 * 1)%Z.
  change (Nat.eqb (List.length (x :: l)) 0) with false. simpl negb.
  destruct (Z.eqb_spec (Z.of_nat (List.length (x :: l))) 0) as [E | E];
    [simpl List.length in E; lia | reflexivity].
Qed.

End ValueFacts.

(** ** Quality tiers *)

Section QualityTiers.
Context `{Engine}.

Lemma color_of_tier_inj (t u : ColorTier) :
  color_of_tier t = color_of_tier u -> t = u.
Proof. destruct t, u; simpl; intros E; try reflexivity; discriminate E. Qed.

Lemma truthy_fin (q : Q) : truthy (VNum (Fin q)) = true <-> ~ q == 0.
Proof.
  simpl. destruct (Qeq_bool q 0) eqn:E.
  - apply Qeq_bool_iff in E. split; [discriminate | tauto].
  - split; [| reflexivity]. intros _ Hq. apply Qeq_bool_iff in Hq. congruence.
Qed.

Lemma getQualityColor_fin (q : Q) :
  getQualityColor (VNum (Fin q)) =
    if Qeq_bool q 0 then color_of_tier unknown
    else if Qle_bool 0.8 q then color_of_tier high
    else if Qle_bool 0.6 q then color_of_tier medium
    else color_of_tier low.
Proof. unfold getQualityColor. simpl. destruct (Qeq_bool q 0); reflexivity. Qed.

Lemma getQualityColor_falsy (score : value) :
  truthy score = false -> getQualityColor score = color_of_tier unknown.
Proof. intros Hf. unfold getQualityColor. rewrite Hf. reflexivity. Qed.

(** C1, as the code has it.  For every numeric score [q]: the high tier
    if and only if [q >= 0.8]; the medium tier if and only if
    [0.6 <= q < 0.8]; the low tier if and only if [q < 0.6] and [q] is not
    zero; the unknown tier if and only if [q] is zero.  An absent score
    ([undefined]) gives the unknown tier, and so do [null] and [NaN].  The
    five sample scores of the specification get the tiers it lists. *)
Theorem getQualityColor_tiers (q : Q) :
  (getQualityColor (VNum (Fin q)) = color_of_tier high <-> 0.8 <= q) /\
  (getQualityColor (VNum (Fin q)) = color_of_tier medium <-> 0.6 <= q /\ q < 0.8) /\
  (getQualityColor (VNum (Fin q)) = color_of_tier low <-> q < 0.6 /\ ~ q == 0) /\
  (getQualityColor (VNum (Fin q)) = color_of_tier unknown <-> q == 0) /\
  getQualityColor VUndefined = color_of_tier unknown /\
  getQualityColor VNull = color_of_tier unknown /\
  getQualityColor (VNum NaN) = color_of_tier unknown /\
  getQualityColor (VNum (Fin 0.8)) = color_of_tier high /\
  getQualityColor (VNum (Fin 0.79999)) = color_of_tier medium /\
  getQualityColor (VNum (Fin 0.6)) = color_of_tier medium /\
  getQualityColor (VNum (Fin 0.59999)) = color_of_tier low.
Proof.
  rewrite getQualityColor_fin.
  repeat match goal with |- _ /\ _ => split end; try reflexivity.
  all: destruct (Qeq_bool q 0) eqn:E0;
    [ apply Qeq_bool_iff in E0
    | assert (~ q == 0) by (intros Hq; apply Qeq_bool_iff in Hq; congruence) ];
    destruct (Qle_bool 0.8 q) eqn:E8;
    [ apply Qle_bool_iff in E8
    | assert (~ 0.8 <= q) by (intros Hq; apply Qle_bool_iff in Hq; congruence) | |];
    try (apply Qle_bool_iff in E8);
    try (assert (~ 0.8 <= q) by (intros Hq; apply Qle_bool_iff in Hq; congruence));
    destruct (Qle_bool 0.6 q) eqn:E6;
    try (apply Qle_bool_iff in E6);
    try (assert (~ 0.6 <= q) by (intros Hq; apply Qle_bool_iff in Hq; congruence));
    (split; [ intros Hc; try (apply color_of_tier_inj in Hc; discriminate Hc); try lra
            | intros Hq; try reflexivity; exfalso; lra ]).
Qed.

(** C9.  The score 0, a present value below 0.6, gets the colour ['#666']
    of an absent score and not the colour of the low tier; the test [!score]
    sends every falsy score there. *)
Theorem getQualityColor_zero :
  getQualityColor (VNum (Fin 0)) = "#666" /\
  0 < 0.6 /\
  color_of_tier unknown = "#666" /\
  getQualityColor (VNum (Fin 0)) <> color_of_tier low /\
  getQualityColor VUndefined = "#666" /\
  (forall score,
     getQualityColor score = if truthy score then getQualityColor score else "#666").
Proof.
  repeat split; try reflexivity; try discriminate.
  intros score. destruct (truthy score) eqn:Ht; [reflexivity |].
  now apply getQualityColor_falsy.
Qed.

End QualityTiers.

(** C1, counterexample: the score 0 is present and below 0.6, and its tier
    is the unknown one, not the low one. *)
Lemma getQualityColor_zero_not_low :
  0 < 0.6 /\
  (forall E : Engine, getQualityColor (VNum (Fin 0)) = color_of_tier unknown) /\
  color_of_tier unknown <> color_of_tier low.
Proof.
  split; [reflexivity |]. split; [intros E; reflexivity | discriminate].
Qed.

(** ** Table rendering *)

Section Tables.
Context `{Engine}.








End Tables.



(** ** Cells *)

Section Cells.
Context `{Engine}.




End Cells.



(** ** Frames: what a handler leaves as it was *)

Section Keeps.
Context {St X : Type} (view : St -> X).

Lemma keeps_ret {A : Type} (a : A) : keeps view (ret a).
Proof. intros s. reflexivity. Qed.

Lemma keeps_throw {A : Type} (e : exn) : keeps view (@throw St A e).
Proof. intros s. reflexivity. Qed.

Lemma keeps_lift_result {A : Type} (r : result A) : keeps view (lift_result r).
Proof. intros s. reflexivity. Qed.

Lemma keeps_modify (f : St -> St) :
  (forall s, view (f s) = view s) -> keeps view (modify f).
Proof. intros Hf s. apply Hf. Qed.

Lemma keeps_bind {A B : Type} (m : M St A) (k : A -> M St B) :
  keeps view m -> (forall a, keeps view (k a)) -> keeps view (bind m k).
Proof.
  intros Hm Hk s. unfold bind. specialize (Hm s).
  destruct (m s) as [[a | e] s1]; simpl in *.
  - rewrite Hk. exact Hm.
  - exact Hm.
Qed.

Lemma keeps_try_catch {A : Type} (body : M St A) (handler : exn -> M St A) :
  keeps view body -> (forall e, keeps view (handler e)) ->
  keeps view (try_catch body handler).
Proof.
  intros Hb Hh s. unfold try_catch. specialize (Hb s).
  destruct (body s) as [[a | e] s1]; simpl in *.
  - exact Hb.
  - rewrite Hh. exact Hb.
Qed.

Lemma keeps_for_each (f : value -> nat -> M St unit) (elems : list value) :
  (forall x i, keeps view (f x i)) -> forall i, keeps view (for_each f elems i).
Proof.
  intros Hf. induction elems as [| x rest IH]; intros i; simpl.
  - apply keeps_ret.
  - apply keeps_bind; [apply Hf | intros _; apply IH].
Qed.

End Keeps.

Lemma keeps_forEach `{Engine} {St X : Type} (view : St -> X)
    (v : value) (f : value -> nat -> M St unit) :
  (forall x i, keeps view (f x i)) -> keeps view (js_forEach v f).
Proof.
  intros Hf. destruct v; simpl; try apply keeps_lift_result.
  now apply keeps_for_each.
Qed.

Lemma keeps_liftD {A X : Type} (view : App -> X) (m : M DOM A) :
  (forall st d, view (with_dom (fun _ => d) st) = view st) ->
  keeps view (liftD m).
Proof.
  intros Hv st. unfold liftD. destruct (m (dom st)) as [r d]. simpl. apply Hv.
Qed.

(** Steps a proof of [keeps] by the shape of the handler. *)
Ltac keeps_step :=
  lazymatch goal with
  | |- keeps _ (bind _ _) => apply keeps_bind; [| intros ?]
  | |- keeps _ (ret _) => apply keeps_ret
  | |- keeps _ (throw _) => apply keeps_throw
  | |- keeps _ (lift_result _) => apply keeps_lift_result
  | |- keeps _ (try_catch _ _) => apply keeps_try_catch; [| intros ?]
  | |- keeps _ (js_forEach _ _) => apply keeps_forEach; intros ? ?
  | |- keeps _ (modify _) => apply keeps_modify; intros ?; try reflexivity
  | |- keeps _ (if ?b then _ else _) => destruct b
  end.

Ltac keeps_auto := repeat keeps_step.



Lemma snd_bind_Throw {St A B : Type} (e : exn) (k : A -> M St B) (s : St) :
  snd (bind (lift_result (Throw e)) k s) = s.
Proof. reflexivity. Qed.

(** ** The statistics line *)

Section Stats.
Context `{Engine}.




End Stats.



(** ** The progress display *)

Section Progress.
Context `{Engine}.










End Progress.



(** ** The polling loop *)

Section Loop.
Context `{Engine}.
Local Open Scope nat_scope.

















Lemma remove_nth_split {A : Type} (i : nat) (l : list A) (x : A) :
  nth_error l i = Some x ->
  exists l1 l2, l = (l1 ++ x :: l2)%list /\ remove_nth i l = (l1 ++ l2)%list.
Proof.
  revert l. induction i as [| i IH]; intros [| a l] Hn; try discriminate Hn.
  - injection Hn as Hn. subst a. exists [], l. split; reflexivity.
  - destruct (IH l Hn) as (l1 & l2 & Hl & Hr).
    exists (a :: l1), l2. split; [simpl; now rewrite <- Hl |].
    unfold remove_nth in *. simpl. simpl in Hr. now rewrite Hr.
Qed.











End Loop.

(** ** Running a [try] block *)

Lemma try_catch_bind_Ok {St A B : Type} (a : A) (k : A -> M St B)
    (h : exn -> M St B) (s : St) :
  try_catch (bind (lift_result (Ok a)) k) h s = try_catch (k a) h s.
Proof. reflexivity. Qed.

Lemma try_catch_bind_Throw {St A B : Type} (e : exn) (k : A -> M St B)
    (h : exn -> M St B) (s : St) :
  try_catch (bind (lift_result (Throw e)) k) h s = h e s.
Proof. reflexivity. Qed.

Lemma try_catch_bind_modify {St B : Type} (f : St -> St) (k : unit -> M St B)
    (h : exn -> M St B) (s : St) :
  try_catch (bind (modify f) k) h s = try_catch (k tt) h (f s).
Proof. reflexivity. Qed.

Lemma try_catch_bind_ret {St A B : Type} (a : A) (k : A -> M St B)
    (h : exn -> M St B) (s : St) :
  try_catch (bind (ret a) k) h s = try_catch (k a) h s.
Proof. reflexivity. Qed.

(** Runs the statements of a [try] block whose outcome is known. *)
Ltac run_try :=
  repeat first
    [ rewrite try_catch_bind_Ok
    | rewrite try_catch_bind_modify
    | rewrite try_catch_bind_ret
    | rewrite try_catch_bind_Throw
    | progress cbn [json body await_fetch status_response]
    | rewrite get_present by assumption ].


(** ** Completion *)

Section Completion.
Context `{Engine}.













End Completion.




(** ** HTTP errors while polling *)

Section PollErrors.
Context `{Engine}.

(** C2, the code at a failing input.  A status fetch answered with any
    HTTP status, 404 or 500 as well, and the JSON body of the error is not
    taken for a failure: nothing is logged, and the next poll is scheduled.
    The handlers never read the status of the response: two responses with
    the same body leave the same state. *)
Theorem poll_ignores_http_status (st : App) (code code' : Z) (b : response_body) :
  ok {| http_status := 404; body := Json not_found_payload |} = false /\
  timers (exec (trackResearchProgress_resume (status_response code not_found_payload)) st)
  = (timers st ++ [{| timer_callback := PollResearch; timer_delay := 2000 |}])%list /\
  timers (exec (trackPdfProcessing_resume (status_response code not_found_payload)) st)
  = (timers st ++ [{| timer_callback := PollPdf; timer_delay := 1000 |}])%list /\
  console (exec (trackResearchProgress_resume (status_response code not_found_payload)) st)
  = console st /\
  console (exec (trackPdfProcessing_resume (status_response code not_found_payload)) st)
  = console st /\
  exec (trackResearchProgress_resume (Responded {| http_status := code; body := b |})) st
  = exec (trackResearchProgress_resume (Responded {| http_status := code'; body := b |})) st /\
  exec (trackPdfProcessing_resume (Responded {| http_status := code; body := b |})) st
  = exec (trackPdfProcessing_resume (Responded {| http_status := code'; body := b |})) st.
Proof. repeat split; reflexivity. Qed.

End PollErrors.

(** ** Starting a job while another one is active *)

Section Starting.
Context `{Engine}.




End Starting.



(** * Further properties of the code *)

(** ** Tables: shape, placeholder, columns, a row that is [null] *)

Section MoreTables.
Context `{Engine}.

Lemma rbind_Ok {A B : Type} (r : result A) (k : A -> result B) (b : B) :
  rbind r k = Ok b -> exists a, r = Ok a /\ k a = Ok b.
Proof. destruct r as [a | e]; simpl; [eauto | discriminate]. Qed.

Lemma map_result_length {A B : Type} (f : A -> result B) (l : list A) (ys : list B) :
  map_result f l = Ok ys -> List.length ys = List.length l.
Proof.
  revert ys. induction l as [| x l IH]; intros ys Hm; simpl in Hm.
  - injection Hm as Hm. subst ys. reflexivity.
  - apply rbind_Ok in Hm as (y & _ & Hm). apply rbind_Ok in Hm as (ys' & Hys & Hm).
    injection Hm as Hm. subst ys. simpl. f_equal. now apply IH.
Qed.

Lemma map_result_Forall {A B : Type} (f : A -> result B) (P : B -> Prop)
    (l : list A) (ys : list B) :
  (forall x y, f x = Ok y -> P y) -> map_result f l = Ok ys -> Forall P ys.
Proof.
  intros Hf. revert ys. induction l as [| x l IH]; intros ys Hm; simpl in Hm.
  - injection Hm as Hm. subst ys. constructor.
  - apply rbind_Ok in Hm as (y & Hy & Hm). apply rbind_Ok in Hm as (ys' & Hys & Hm).
    injection Hm as Hm. subst ys. constructor; [eapply Hf; eassumption | now apply IH].
Qed.


(** X1.  A table without [data], or whose [data] is empty (a falsy value,
    an empty list, anything with a falsy [length]), is rendered as the "no
    data" placeholder, whatever its columns and its reported counts. *)
Theorem createTableHTML_no_data (table data : value) :
  get table "data" = Ok data ->
  truthy data = false \/ truthy (prop data "length") = false ->
  createTableHTML table = Ok NoData.
Proof.
  intros Hd Hempty. unfold createTableHTML. rewrite Hd. cbn [rbind].
  destruct (truthy data) eqn:Ht; [| reflexivity]. cbn [negb].
  destruct Hempty as [Hf | Hf]; [discriminate Hf |].
  rewrite (get_present _ _ (truthy_present _ Ht)). cbn [rbind].
  rewrite Hf. reflexivity.
Qed.

(** X2.  Whenever [createTableHTML] returns a table, it has between 1 and
    50 body rows, and every body row has exactly as many cells as the
    header has columns. *)
Theorem createTableHTML_shape (table : value) (ths : list string)
    (trs : list (list string)) :
  createTableHTML table = Ok (DataTable ths trs) ->
  (1 <= List.length trs <= 50)%nat /\
  Forall (fun tr => List.length tr = List.length ths) trs.
Proof.
  unfold createTableHTML. intros Hr.
  apply rbind_Ok in Hr as (data & Hd & Hr).
  destruct (truthy data) eqn:Htd; [| discriminate Hr]. cbn [negb] in Hr.
  apply rbind_Ok in Hr as (len & Hlen & Hr).
  destruct (truthy len) eqn:Htl; [| discriminate Hr]. cbn [negb] in Hr.
  apply rbind_Ok in Hr as (columns & _ & Hr).
  apply rbind_Ok in Hr as (headers & _ & Hr).
  apply rbind_Ok in Hr as (rows & Hrows & Hr).
  apply rbind_Ok in Hr as (ths' & Hths & Hr).
  apply rbind_Ok in Hr as (trs' & Htrs & Hr).
  injection Hr as Hr1 Hr2. subst ths' trs'.
  destruct headers as [| | | | | hs | |]; try discriminate Hths.
  destruct rows as [| | | | | rs | |]; try discriminate Htrs.
  destruct data as [| | | | s | elems | |]; try discriminate Hrows.
  assert (Hrs : rs = firstn 50 elems) by (cbn [js_slice] in Hrows; congruence).
  clear Hrows. cbn [js_map] in Hths, Htrs.
  pose proof (map_result_length _ _ _ Hths) as Hlt.
  pose proof (map_result_length _ _ _ Htrs) as Hlr.
  rewrite array_length in Hlen. injection Hlen as Hlen. subst len.
  rewrite truthy_length in Htl.
  rewrite Hrs, length_firstn in Hlr.
  split.
  - destruct elems; [discriminate Htl |]. simpl List.length in *. lia.
  - apply (map_result_Forall _ _ _ _ (fun row tr Hrow =>
             eq_trans (map_result_length _ _ _ Hrow) (eq_sym Hlt)) Htrs).
Qed.



(** X5.  The card of a table falls back to [Untitled], [General Data] and
    [N/A] for a name, a category and a quality score that are missing or
    falsy (an empty name, a score of 0), and shows their own text otherwise;
    tables are numbered from 1; the grey colour ['#666'] goes with exactly
    the scores shown as [N/A] for being falsy. *)
Theorem createTableCard_fallbacks (table : value) (index : nat) (card : TableCard) :
  createTableCard table index = Ok card ->
  card_number card = nat_to_string (S index) /\
  card_name card = (if truthy (prop table "name")
                    then to_string (prop table "name") else "Untitled") /\
  card_category card = (if truthy (prop table "category")
                        then to_string (prop table "category") else "General Data") /\
  card_quality card = (if truthy (prop table "quality_score")
                       then to_string (prop table "quality_score") else "N/A") /\
  (card_quality_color card = "#666" <-> truthy (prop table "quality_score") = false).
Proof.
  unfold createTableCard. intros Hr.
  apply rbind_Ok in Hr as (score & Hs & Hr).
  pose proof (get_Ok_present _ _ _ Hs) as Hp.
  rewrite (get_present _ _ Hp) in Hs. injection Hs as Hs. subst score.
  rewrite !(get_present _ _ Hp) in Hr. cbn [rbind] in Hr.
  apply rbind_Ok in Hr as (html & _ & Hr). injection Hr as Hr. subst card.
  cbn [card_number card_name card_category card_quality card_quality_color].
  unfold js_or. rewrite Nat.add_1_r.
  repeat split.
  - destruct (truthy (prop table "name")); reflexivity.
  - destruct (truthy (prop table "category")); reflexivity.
  - destruct (truthy (prop table "quality_score")); reflexivity.
  - unfold getQualityColor. destruct (truthy (prop table "quality_score")); [| reflexivity].
    cbn [negb]. destruct (js_ge _ _); [discriminate |].
    destruct (js_ge _ _); discriminate.
  - intros Hf. now apply getQualityColor_falsy.
Qed.

End MoreTables.

(** A table that reports 7 rows and carries no data. *)
Lemma createTableHTML_no_data_witness :
  createTableHTML (H := sample_engine)
    (VObj [("name", VStr "Empty"); ("row_count", VInt 7); ("data", VArr [])])
  = Ok NoData.
Proof.
  apply (createTableHTML_no_data (H := sample_engine)
           (VObj [("name", VStr "Empty"); ("row_count", VInt 7); ("data", VArr [])])
           (VArr []) eq_refl).
  right. reflexivity.
Defined.

(** The table of 120 rows: 50 rows of two cells. *)
Lemma createTableHTML_shape_witness :
  exists ths trs,
    createTableHTML (H := sample_engine) table120 = Ok (DataTable ths trs) /\
    List.length trs = 50%nat /\
    Forall (fun tr => List.length tr = List.length ths) trs.
Proof.
  destruct (createTableHTML (H := sample_engine) table120) as [[| ths trs] | e] eqn:Hr;
    try (exfalso; vm_compute in Hr; discriminate Hr).
  exists ths, trs. split; [reflexivity |].
  destruct (createTableHTML_shape (H := sample_engine) table120 ths trs Hr) as [_ Hall].
  split; [| exact Hall].
  vm_compute in Hr. injection Hr as _ Hr. subst trs. reflexivity.
Defined.



(** A table with nothing but its data. *)
Lemma createTableCard_fallbacks_witness :
  exists card,
    createTableCard (H := sample_engine) (VObj [("data", VArr [])]) 0 = Ok card /\
    card_number card = "1" /\ card_name card = "Untitled" /\
    card_category card = "General Data" /\ card_quality card = "N/A".
Proof.
  eexists. split; [reflexivity |].
  destruct (createTableCard_fallbacks (H := sample_engine)
              (VObj [("data", VArr [])]) 0 _ eq_refl) as (Hn & Hname & Hc & Hq & _).
  repeat split; assumption.
Defined.

(** ** The list of tables *)

Section MoreResults.
Context `{Engine}.

Lemma update_tablesContainer_same (d : DOM) :
  update_tablesContainer (fun _ => tablesContainer (results d)) d = d.
Proof. destruct d as [f p [w r s m t]]. reflexivity. Qed.

Lemma createTableCard_number (table : value) (index : nat) (card : TableCard) :
  createTableCard table index = Ok card -> card_number card = nat_to_string (S index).
Proof.
  unfold createTableCard. intros Hr.
  repeat (apply rbind_Ok in Hr as (? & _ & Hr)).
  injection Hr as Hr. subst card. cbn [card_number]. now rewrite Nat.add_1_r.
Qed.

Lemma render_all_length (tables : list value) (index : nat) (cards : list TableCard) :
  render_all tables index = Ok cards -> List.length cards = List.length tables.
Proof.
  revert index cards. induction tables as [| t tables IH]; intros index cards Hr;
    simpl in Hr.
  - injection Hr as Hr. subst cards. reflexivity.
  - apply rbind_Ok in Hr as (c & _ & Hr). apply rbind_Ok in Hr as (cs & Hcs & Hr).
    injection Hr as Hr. subst cards. simpl. f_equal. eapply IH, Hcs.
Qed.

Lemma render_all_numbers (tables : list value) (index : nat) (cards : list TableCard) :
  render_all tables index = Ok cards ->
  map card_number cards
  = map (fun i => nat_to_string (S i)) (seq index (List.length tables)).
Proof.
  revert index cards. induction tables as [| t tables IH]; intros index cards Hr;
    simpl in Hr.
  - injection Hr as Hr. subst cards. reflexivity.
  - apply rbind_Ok in Hr as (c & Hc & Hr). apply rbind_Ok in Hr as (cs & Hcs & Hr).
    injection Hr as Hr. subst cards. simpl. f_equal.
    + eapply createTableCard_number, Hc.
    + eapply IH, Hcs.
Qed.

Lemma for_each_cards (tables : list value) (index : nat) (cards : list TableCard)
    (d : DOM) :
  render_all tables index = Ok cards ->
  for_each (fun table index =>
      tableCard <- lift_result (createTableCard table index) ;;
      modify (update_tablesContainer (fun nodes => (nodes ++ [Card tableCard])%list)))
    tables index d
  = (Ok tt, update_tablesContainer
              (fun _ => (tablesContainer (results d) ++ map Card cards)%list) d).
Proof.
  revert index cards d. induction tables as [| t tables IH]; intros index cards d Hr;
    simpl in Hr.
  - injection Hr as Hr. subst cards. simpl. rewrite app_nil_r.
    now rewrite update_tablesContainer_same.
  - apply rbind_Ok in Hr as (c & Hc & Hr). apply rbind_Ok in Hr as (cs & Hcs & Hr).
    injection Hr as Hr. subst cards.
    cbn [for_each]. unfold bind at 1. unfold bind at 1.
    rewrite Hc. cbn [lift_result modify].
    rewrite (IH _ _ _ Hcs). cbn [map]. f_equal.
    unfold update_tablesContainer, set_results. cbn [results tablesContainer form progress
      welcomeFeatures_display resultsSection_display resultsStats researchSummary].
    now rewrite <- app_assoc.
Qed.

Lemma for_each_stops (good rest : list value) (bad : value) (index : nat)
    (cards : list TableCard) (e : exn) (d : DOM) :
  render_all good index = Ok cards ->
  createTableCard bad (index + List.length good) = Throw e ->
  for_each (fun table index =>
      tableCard <- lift_result (createTableCard table index) ;;
      modify (update_tablesContainer (fun nodes => (nodes ++ [Card tableCard])%list)))
    (good ++ bad :: rest) index d
  = (Throw e, update_tablesContainer
                (fun _ => (tablesContainer (results d) ++ map Card cards)%list) d).
Proof.
  revert index cards d. induction good as [| t good IH]; intros index cards d Hr Hbad;
    simpl in Hr.
  - injection Hr as Hr. subst cards. simpl in Hbad. rewrite Nat.add_0_r in Hbad.
    cbn [app for_each]. unfold bind at 1. unfold bind at 1.
    rewrite Hbad. cbn [lift_result map]. rewrite app_nil_r.
    now rewrite update_tablesContainer_same.
  - apply rbind_Ok in Hr as (c & Hc & Hr). apply rbind_Ok in Hr as (cs & Hcs & Hr).
    injection Hr as Hr. subst cards.
    cbn [app for_each]. unfold bind at 1. unfold bind at 1.
    rewrite Hc. cbn [lift_result modify].
    rewrite (IH (S index) cs _ Hcs)
      by (simpl in Hbad; now rewrite Nat.add_succ_r in Hbad).
    cbn [map]. f_equal.
    unfold update_tablesContainer, set_results. cbn [results tablesContainer form progress
      welcomeFeatures_display resultsSection_display resultsStats researchSummary].
    now rewrite <- app_assoc.
Qed.

(** X6.  [displayTables] replaces what the container held: by the single
    "no tables" placeholder for an empty list, and for a list of tables
    that all render by one card per table, in the order of the list and
    numbered from 1. *)
Theorem displayTables_cards (tables : list value) (cards : list TableCard) (d : DOM) :
  render_all tables 0 = Ok cards ->
  displayTables (VArr tables) d
  = (Ok tt, update_tablesContainer
              (fun _ => match tables with
                        | [] => [Placeholder]
                        | _ => map Card cards
                        end) d) /\
  List.length cards = List.length tables /\
  map card_number cards
  = map (fun i => nat_to_string (S i)) (seq 0 (List.length tables)).
Proof.
  intros Hr. split; [| split].
  - unfold displayTables. unfold bind at 1. cbn [modify].
    rewrite array_length. unfold bind at 1. cbn [lift_result].
    rewrite truthy_length. destruct tables as [| t tables].
    + reflexivity.
    + cbn [List.length Nat.eqb negb js_forEach]. rewrite (for_each_cards _ _ _ _ Hr).
      reflexivity.
  - eapply render_all_length, Hr.
  - eapply render_all_numbers, Hr.
Qed.

(** X7.  A table that cannot be rendered stops [displayTables]: the
    exception leaves it, the cards of the tables before it stay in the
    container, and the tables after it are not shown. *)
Theorem displayTables_stops_at_failure (good rest : list value) (bad : value)
    (cards : list TableCard) (e : exn) (d : DOM) :
  render_all good 0 = Ok cards ->
  createTableCard bad (List.length good) = Throw e ->
  displayTables (VArr (good ++ bad :: rest)) d
  = (Throw e, update_tablesContainer (fun _ => map Card cards) d).
Proof.
  intros Hr Hbad. unfold displayTables. unfold bind at 1. cbn [modify].
  rewrite array_length. unfold bind at 1. cbn [lift_result].
  rewrite truthy_length.
  assert (Hne : Nat.eqb (List.length (good ++ bad :: rest)) 0 = false).
  { rewrite length_app. simpl. apply Nat.eqb_neq. lia. }
  rewrite Hne. cbn [negb js_forEach].
  rewrite (for_each_stops _ _ _ _ _ _ _ Hr Hbad). reflexivity.
Qed.

End MoreResults.

(** Two tables, the second one empty. *)
Lemma displayTables_cards_witness :
  exists cards,
    render_all (H := sample_engine) [table120; VObj [("data", VArr [])]] 0 = Ok cards /\
    map card_number cards = ["1"; "2"] /\
    fst (displayTables (H := sample_engine)
           (VArr [table120; VObj [("data", VArr [])]]) initial_dom) = Ok tt.
Proof.
  destruct (render_all (H := sample_engine) [table120; VObj [("data", VArr [])]] 0)
    as [cards | e] eqn:Hr; [| exfalso; vm_compute in Hr; discriminate Hr].
  exists cards. split; [reflexivity |].
  destruct (displayTables_cards (H := sample_engine) _ cards initial_dom Hr)
    as (Hd & _ & Hn).
  split; [exact Hn | now rewrite Hd].
Defined.

(** A [null] entry after one table. *)
Lemma displayTables_stops_at_failure_witness :
  exists cards e,
    displayTables (H := sample_engine)
      (VArr [VObj [("data", VArr [])]; VNull; table120]) initial_dom
    = (Throw e, update_tablesContainer (fun _ => map Card cards) initial_dom) /\
    List.length cards = 1%nat.
Proof.
  destruct (render_all (H := sample_engine) [VObj [("data", VArr [])]] 0)
    as [cards | e0] eqn:Hr; [| exfalso; vm_compute in Hr; discriminate Hr].
  destruct (createTableCard (H := sample_engine) VNull 1) as [c | e] eqn:Hbad;
    [exfalso; vm_compute in Hbad; discriminate Hbad |].
  exists cards, e. split.
  - exact (displayTables_stops_at_failure (H := sample_engine)
             [VObj [("data", VArr [])]] [table120] VNull cards e initial_dom Hr Hbad).
  - vm_compute in Hr. injection Hr as Hr. subst cards. reflexivity.
Defined.

(** ** Results without tables, without results, and the summary *)

Section MoreDisplay.
Context `{Engine}.






End MoreDisplay.



(** ** Polling: when it goes on, how it ends *)

Section MorePolling.
Context `{Engine}.

Lemma poll_timers_setTimeout (c : callback) (delay : Z) (st : App) :
  poll_timers (setTimeout c delay st)
  = (poll_timers st
     ++ (if is_poll {| timer_callback := c; timer_delay := delay |}
         then [{| timer_callback := c; timer_delay := delay |}] else []))%list.
Proof.
  unfold poll_timers, setTimeout. cbn [timers set_timers]. rewrite filter_app.
  cbn [filter]. destruct (is_poll _); reflexivity.
Qed.

Lemma poll_timers_hide (st : App) :
  poll_timers (hideProgressAfterDelay st) = poll_timers st.
Proof.
  unfold hideProgressAfterDelay. rewrite poll_timers_setTimeout. cbn. apply app_nil_r.
Qed.






End MorePolling.


(** ** Failures: reported by the server, of the transport, of a submission *)

Section MoreFailures.
Context `{Engine}.


Lemma nth_error_last {A : Type} (l : list A) (x : A) :
  nth_error (l ++ [x]) (List.length l) = Some x.
Proof. induction l as [| a l IH]; simpl; [reflexivity | exact IH]. Qed.

Lemma remove_nth_last {A : Type} (l : list A) (x : A) :
  remove_nth (List.length l) (l ++ [x]) = l.
Proof.
  unfold remove_nth. induction l as [| a l IH]; simpl; [reflexivity |].
  simpl in IH. now rewrite IH.
Qed.

(** X12.  A status fetch that fails in transport (the request is rejected,
    or the body is no JSON) ends the polling of the job: the error is
    logged, the bar goes to [0%] with the text "Tracking error: " and the
    message, no poll timer is added and no request sent.  When the
    3000 ms timer set for it fires, the progress section is hidden and the
    form enabled again; the job id stays as it was. *)
Theorem poll_failure_is_terminal (st : App) (k : continuation) (o : fetch_outcome)
    (e : exn) :
  k = AfterResearchStatus \/ k = AfterPdfStatus ->
  o = Rejected e \/ (exists code, o = Responded {| http_status := code; body := NotJson e |}) ->
  let st1 := resume k o st in
  (exists label, console st1 = (console st ++ [(label, e)])%list) /\
  progressText (progress (dom st1)) = VStr ("Tracking error: " ++ exn_message e) /\
  progressFill_width (progress (dom st1)) = "0%" /\
  poll_timers st1 = poll_timers st /\
  inflight st1 = inflight st /\
  exists st2,
    step st1 (TimerFires (List.length (timers st))) = Some st2 /\
    timers st2 = timers st /\
    progressSection_display (progress (dom st2)) = "none" /\
    start_research_disabled (form (dom st2)) = false /\
    currentJobId st2 = currentJobId st.
Proof.
  intros Hk Ho st1.
  assert (Hst1 : exists label,
            st1 = hideProgressAfterDelay
                    (with_dom (updateProgress (VInt 0)
                                 (VStr ("Tracking error: " ++ exn_message e)))
                       (console_error label e st))).
  { subst st1. destruct Hk as [Hk | Hk], Ho as [Ho | [code Ho]]; subst k o;
      eexists; reflexivity. }
  destruct Hst1 as [label Hst1]. rewrite Hst1.
  split; [exists label; reflexivity |].
  split; [reflexivity |]. split; [reflexivity |].
  split; [rewrite poll_timers_hide; reflexivity |]. split; [reflexivity |].
  unfold step. cbn [timers hideProgressAfterDelay setTimeout set_timers with_dom
                    console_error].
  rewrite nth_error_last, remove_nth_last. eexists. split; [reflexivity |].
  repeat split; reflexivity.
Qed.

(** X13.  A submission answered with a status outside 200..299 is an
    error whatever its body: it is logged, the bar goes to [0%] with the
    text "Error: HTTP error! status: N" (research) or "Upload error:
    Upload failed: N" (upload), the job id stays as it was, no status
    request is sent, and the progress is hidden 3000 ms later. *)
Theorem submission_rejected_on_http_error (st : App) (code : Z) (b : response_body) :
  ok {| http_status := code; body := b |} = false ->
  let o := Responded {| http_status := code; body := b |} in
  let hide := {| timer_callback := HideProgress; timer_delay := 3000 |} in
  (progressText (progress (dom (exec (startAutomatedResearch_resume o) st)))
   = VStr ("Error: HTTP error! status: " ++ int_to_string code) /\
   progressFill_width (progress (dom (exec (startAutomatedResearch_resume o) st))) = "0%" /\
   currentJobId (exec (startAutomatedResearch_resume o) st) = currentJobId st /\
   inflight (exec (startAutomatedResearch_resume o) st) = inflight st /\
   timers (exec (startAutomatedResearch_resume o) st) = (timers st ++ [hide])%list /\
   console (exec (startAutomatedResearch_resume o) st)
   = (console st ++ [("Research failed:",
                      Exn ("HTTP error! status: " ++ int_to_string code))])%list) /\
  (progressText (progress (dom (exec (processManualPdf_resume o) st)))
   = VStr ("Upload error: Upload failed: " ++ int_to_string code) /\
   progressFill_width (progress (dom (exec (processManualPdf_resume o) st))) = "0%" /\
   currentJobId (exec (processManualPdf_resume o) st) = currentJobId st /\
   inflight (exec (processManualPdf_resume o) st) = inflight st /\
   timers (exec (processManualPdf_resume o) st) = (timers st ++ [hide])%list /\
   console (exec (processManualPdf_resume o) st)
   = (console st ++ [("Manual upload failed:",
                      Exn ("Upload failed: " ++ int_to_string code))])%list).
Proof.
  intros Hok o hide. subst o. split.
  - unfold startAutomatedResearch_resume, exec. run_try.
    unfold try_catch, bind at 1. rewrite Hok. cbn [negb throw].
    repeat split; reflexivity.
  - unfold processManualPdf_resume, exec. run_try.
    unfold try_catch, bind at 1. rewrite Hok. cbn [negb throw].
    repeat split; reflexivity.
Qed.



End MoreFailures.


(** The network is down at the first poll of [job-1]. *)
Lemma poll_failure_is_terminal_witness :
  poll_timers (resume (H := sample_engine) AfterResearchStatus
                 (Rejected (Exn "Failed to fetch")) (@polling_app sample_engine))
  = poll_timers (@polling_app sample_engine).
Proof.
  destruct (poll_failure_is_terminal (H := sample_engine) (@polling_app sample_engine)
              AfterResearchStatus (Rejected (Exn "Failed to fetch"))
              (Exn "Failed to fetch") (or_introl eq_refl) (or_introl eq_refl))
    as (_ & _ & _ & Hp & _).
  exact Hp.
Defined.

(** The server answers the submission with 500. *)
Lemma submission_rejected_on_http_error_witness :
  progressText (progress (dom
    (exec (startAutomatedResearch_resume (H := sample_engine)
             (Responded {| http_status := 500; body := NotJson (Exn "Unexpected token") |}))
       (@submitted_app sample_engine))))
  = VStr "Error: HTTP error! status: 500".
Proof.
  destruct (submission_rejected_on_http_error (H := sample_engine)
              (@submitted_app sample_engine) 500 (NotJson (Exn "Unexpected token"))
              eq_refl) as ((Htext & _) & _).
  exact Htext.
Defined.



(** ** What holds in every state the page can reach *)

Section Stable.
Context {St : Type} (P : St -> Prop).

Lemma stable_ret {A : Type} (a : A) : stable P (ret a).
Proof. intros s Hs. exact Hs. Qed.

Lemma stable_throw {A : Type} (e : exn) : stable P (@throw St A e).
Proof. intros s Hs. exact Hs. Qed.

Lemma stable_lift_result {A : Type} (r : result A) : stable P (lift_result r).
Proof. intros s Hs. exact Hs. Qed.

Lemma stable_modify (f : St -> St) :
  (forall s, P s -> P (f s)) -> stable P (modify f).
Proof. intros Hf s Hs. apply Hf, Hs. Qed.

Lemma stable_bind {A B : Type} (m : M St A) (k : A -> M St B) :
  stable P m -> (forall a, stable P (k a)) -> stable P (bind m k).
Proof.
  intros Hm Hk s Hs. unfold bind. specialize (Hm s Hs).
  destruct (m s) as [[a | e] s1]; simpl in *.
  - apply Hk, Hm.
  - exact Hm.
Qed.

Lemma stable_try_catch {A : Type} (body : M St A) (handler : exn -> M St A) :
  stable P body -> (forall e, stable P (handler e)) ->
  stable P (try_catch body handler).
Proof.
  intros Hb Hh s Hs. unfold try_catch. specialize (Hb s Hs).
  destruct (body s) as [[a | e] s1]; simpl in *.
  - exact Hb.
  - apply Hh, Hb.
Qed.

Lemma stable_keeps {A X : Type} (view : St -> X) (m : M St A) :
  keeps view m -> (forall s s', view s' = view s -> P s -> P s') -> stable P m.
Proof. intros Hk Hv s Hs. apply (Hv s); [apply Hk | exact Hs]. Qed.

End Stable.

Lemma stable_liftD {A : Type} (P : App -> Prop) (m : M DOM A) :
  (forall st d, P st -> P (with_dom (fun _ => d) st)) -> stable P (liftD m).
Proof.
  intros Hp st Hs. unfold liftD. destruct (m (dom st)) as [r d]. simpl. now apply Hp.
Qed.

Lemma stable_liftD_dom {A : Type} (Q : DOM -> Prop) (m : M DOM A) :
  stable Q m -> stable (fun st => Q (dom st)) (liftD m).
Proof.
  intros Hm st Hs. unfold liftD. specialize (Hm (dom st) Hs).
  destruct (m (dom st)) as [r d]. exact Hm.
Qed.

(** Steps a proof of [stable] by the shape of the handler; [leaf] closes
    what a single statement leaves. *)
Ltac stable_step leaf :=
  lazymatch goal with
  | |- stable _ (try_catch _ _) => apply stable_try_catch; [| intros ?]
  | |- stable _ (bind _ _) => apply stable_bind; [| intros ?]
  | |- stable _ (if ?b then _ else _) => destruct b
  | |- stable _ (ret _) => apply stable_ret
  | |- stable _ (throw _) => apply stable_throw
  | |- stable _ (lift_result _) => apply stable_lift_result
  | |- stable _ (modify _) => apply stable_modify; intros ? ?; leaf
  | |- stable _ (liftD _) => leaf
  end.

Lemma steps_invariant `{Engine} (P : App -> Prop) :
  (forall st ev st', P st -> step st ev = Some st' -> P st') ->
  forall evs st st', P st -> steps st evs = Some st' -> P st'.
Proof.
  intros Hstep. induction evs as [| ev evs IH]; intros st st' Hp Hs; simpl in Hs.
  - injection Hs as Hs. now subst st'.
  - destruct (step st ev) as [st1 |] eqn:Hst; [| discriminate Hs].
    eapply IH; [eapply Hstep; eassumption | exact Hs].
Qed.

Lemma forallb_remove_nth {A : Type} (p : A -> bool) (i : nat) (l : list A) (x : A) :
  nth_error l i = Some x -> forallb p l = true -> forallb p (remove_nth i l) = true.
Proof.
  intros Hn Hl. destruct (remove_nth_split _ _ _ Hn) as (l1 & l2 & El & Er).
  rewrite Er. rewrite El in Hl. rewrite forallb_app in *. simpl in Hl.
  apply andb_true_iff in Hl as [H1 H2]. apply andb_true_iff in H2 as [_ H2].
  now rewrite H1, H2.
Qed.

Section Invariants.
Context `{Engine}.

(** *** Timers *)

Lemma timers_ok_setTimeout (c : callback) (delay : Z) (st : App) :
  timer_ok {| timer_callback := c; timer_delay := delay |} = true ->
  timers_ok st -> timers_ok (setTimeout c delay st).
Proof.
  unfold timers_ok, setTimeout. cbn [timers set_timers]. intros Ht Hs.
  rewrite forallb_app, Hs. simpl. now rewrite Ht.
Qed.

Lemma timers_trackResearchProgress (st : App) :
  timers (trackResearchProgress st) = timers st.
Proof. unfold trackResearchProgress. destruct (negb _); reflexivity. Qed.

Lemma timers_trackPdfProcessing (st : App) :
  timers (trackPdfProcessing st) = timers st.
Proof. unfold trackPdfProcessing. destruct (negb _); reflexivity. Qed.

Ltac timers_leaf :=
  first
    [ assumption
    | apply timers_ok_setTimeout; [reflexivity | assumption]
    | unfold timers_ok; rewrite timers_trackResearchProgress; assumption
    | unfold timers_ok; rewrite timers_trackPdfProcessing; assumption
    | apply stable_liftD; intros ? ? ?; assumption ].

Lemma timers_ok_resume (k : continuation) (o : fetch_outcome) (st : App) :
  timers_ok st -> timers_ok (resume k o st).
Proof.
  intros Hs. destruct k; simpl; unfold exec;
    match goal with |- timers_ok (snd (?m st)) =>
      cut (stable timers_ok m); [intros Hst; now apply Hst |]
    end.
  - unfold startAutomatedResearch_resume. repeat stable_step timers_leaf.
  - unfold processManualPdf_resume. repeat stable_step timers_leaf.
  - unfold trackResearchProgress_resume. repeat stable_step timers_leaf.
  - unfold trackPdfProcessing_resume. repeat stable_step timers_leaf.
Qed.

Lemma timers_ok_step (st : App) (ev : event) (st' : App) :
  timers_ok st -> step st ev = Some st' -> timers_ok st'.
Proof.
  intros Hs Hst. destruct ev as [| | i | i o]; simpl in Hst.
  - injection Hst as Hst. subst st'. unfold startAutomatedResearch.
    destruct (_ =? _); exact Hs.
  - injection Hst as Hst. subst st'. unfold processManualPdf.
    destruct (manual_pdf_files _); exact Hs.
  - destruct (nth_error (timers st) i) as [t |] eqn:Hn; [| discriminate Hst].
    injection Hst as Hst. subst st'.
    assert (H0 : timers_ok (set_timers (remove_nth i (timers st)) st))
      by (apply (forallb_remove_nth _ _ _ _ Hn), Hs).
    destruct (timer_callback t); simpl; unfold timers_ok.
    + now rewrite timers_trackResearchProgress.
    + now rewrite timers_trackPdfProcessing.
    + exact H0.
  - destruct (nth_error (inflight st) i) as [x |] eqn:Hn; [| discriminate Hst].
    injection Hst as Hst. subst st'. apply timers_ok_resume. exact Hs.
Qed.

(** X16.  In every state reached by any events (form submissions, clicks
    on the upload button, timers, responses) every pending timer is one of
    the three the class sets: a research poll after 2000 ms, a PDF poll
    after 1000 ms, the hiding of the progress after 3000 ms. *)
Theorem timers_have_fixed_delays (st st' : App) (evs : list event) :
  forallb timer_ok (timers st) = true ->
  steps st evs = Some st' ->
  forallb timer_ok (timers st') = true.
Proof. intros Hs Hsteps. exact (steps_invariant timers_ok timers_ok_step evs st st' Hs Hsteps). Qed.

End Invariants.

Section Requests.
Context `{Engine}.

Lemma prefix_app (a b : string) : prefix a (a ++ b) = true.
Proof.
  induction a as [| c a IH]; simpl; [now destruct b |].
  destruct (ascii_dec c c) as [_ | Hn]; [exact IH | contradiction].
Qed.

Lemma append_assoc (a b c : string) : ((a ++ b) ++ c = a ++ b ++ c)%string.
Proof. induction a as [| x a IH]; simpl; [reflexivity | now rewrite IH]. Qed.

Lemma requests_ok_fetch (method url : string) (b : request_body) (k : continuation)
    (st : App) :
  exchange_ok (apiBase st)
    {| sent := {| req_method := method; req_url := url; req_body := b |};
       awaiting := k |} = true ->
  requests_ok st -> requests_ok (fetch method url b k st).
Proof.
  unfold requests_ok, fetch. cbn [apiBase inflight set_inflight]. intros Hx Hs.
  rewrite forallb_app, Hs. simpl. now rewrite Hx.
Qed.

Lemma requests_ok_trackResearchProgress (st : App) :
  requests_ok st -> requests_ok (trackResearchProgress st).
Proof.
  intros Hs. unfold trackResearchProgress. destruct (negb _); [exact Hs |].
  apply requests_ok_fetch; [| exact Hs].
  unfold exchange_ok. cbn [awaiting sent req_method req_url req_body].
  rewrite <- append_assoc, prefix_app. reflexivity.
Qed.

Lemma requests_ok_trackPdfProcessing (st : App) :
  requests_ok st -> requests_ok (trackPdfProcessing st).
Proof.
  intros Hs. unfold trackPdfProcessing. destruct (negb _); [exact Hs |].
  apply requests_ok_fetch; [| exact Hs].
  unfold exchange_ok. cbn [awaiting sent req_method req_url req_body].
  rewrite <- append_assoc, prefix_app. reflexivity.
Qed.

Ltac requests_leaf :=
  first
    [ assumption
    | apply requests_ok_trackResearchProgress; assumption
    | apply requests_ok_trackPdfProcessing; assumption
    | apply stable_liftD; intros ? ? ?; assumption ].

Lemma requests_ok_resume (k : continuation) (o : fetch_outcome) (st : App) :
  requests_ok st -> requests_ok (resume k o st).
Proof.
  intros Hs. destruct k; simpl; unfold exec;
    match goal with |- requests_ok (snd (?m st)) =>
      cut (stable requests_ok m); [intros Hst; now apply Hst |]
    end.
  - unfold startAutomatedResearch_resume. repeat stable_step requests_leaf.
  - unfold processManualPdf_resume. repeat stable_step requests_leaf.
  - unfold trackResearchProgress_resume. repeat stable_step requests_leaf.
  - unfold trackPdfProcessing_resume. repeat stable_step requests_leaf.
Qed.

Lemma requests_ok_step (st : App) (ev : event) (st' : App) :
  requests_ok st -> step st ev = Some st' -> requests_ok st'.
Proof.
  intros Hs Hst. destruct ev as [| | i | i o]; simpl in Hst.
  - injection Hst as Hst. subst st'. unfold startAutomatedResearch.
    destruct (_ =? _); [exact Hs |].
    apply requests_ok_fetch; [| exact Hs].
    unfold exchange_ok. cbn [awaiting sent req_method req_url req_body apiBase with_dom].
    rewrite !String.eqb_refl. reflexivity.
  - injection Hst as Hst. subst st'. unfold processManualPdf.
    destruct (manual_pdf_files _); [exact Hs |].
    apply requests_ok_fetch; [| exact Hs].
    unfold exchange_ok. cbn [awaiting sent req_method req_url req_body apiBase with_dom].
    rewrite !String.eqb_refl. reflexivity.
  - destruct (nth_error (timers st) i) as [t |] eqn:Hn; [| discriminate Hst].
    injection Hst as Hst. subst st'.
    destruct (timer_callback t); simpl.
    + apply requests_ok_trackResearchProgress. exact Hs.
    + apply requests_ok_trackPdfProcessing. exact Hs.
    + exact Hs.
  - destruct (nth_error (inflight st) i) as [x |] eqn:Hn; [| discriminate Hst].
    injection Hst as Hst. subst st'. apply requests_ok_resume.
    apply (forallb_remove_nth _ _ _ _ Hn), Hs.
Qed.

(** X17.  In every state reached by any events, every request in flight
    is one of the four calls of the client: [POST <base>/research/start]
    with a JSON body, [POST <base>/pdf/upload] with the form data, or a
    [GET] without a body of [<base>/research/status/...] or
    [<base>/pdf/status/...], each awaited by its own handler; the base URL
    never changes.  The client writes nothing to the server but the two
    submissions. *)
Theorem requests_are_the_four_calls (st st' : App) (evs : list event) :
  forallb (exchange_ok (apiBase st)) (inflight st) = true ->
  steps st evs = Some st' ->
  forallb (exchange_ok (apiBase st')) (inflight st') = true /\
  apiBase st' = apiBase st.
Proof.
  intros Hs Hsteps. split.
  - exact (steps_invariant requests_ok requests_ok_step evs st st' Hs Hsteps).
  - apply (steps_invariant (fun s => apiBase s = apiBase st)) with (evs := evs) (st := st);
      [| reflexivity | exact Hsteps].
    clear. intros s ev s' Hs Hst. rewrite <- Hs. clear Hs.
    destruct ev as [| | i | i o]; simpl in Hst.
    + injection Hst as Hst. subst s'. unfold startAutomatedResearch.
      destruct (_ =? _); reflexivity.
    + injection Hst as Hst. subst s'. unfold processManualPdf.
      destruct (manual_pdf_files _); reflexivity.
    + destruct (nth_error (timers s) i) as [t |]; [| discriminate Hst].
      injection Hst as Hst. subst s'. destruct (timer_callback t); simpl.
      * unfold trackResearchProgress. destruct (negb _); reflexivity.
      * unfold trackPdfProcessing. destruct (negb _); reflexivity.
      * reflexivity.
    + destruct (nth_error (inflight s) i) as [x |]; [| discriminate Hst].
      injection Hst as Hst. subst s'.
      assert (Hk : forall m : M App unit,
                keeps apiBase m ->
                apiBase (exec m (set_inflight (remove_nth i (inflight s)) s)) = apiBase s)
        by (intros m Hm; unfold exec; now rewrite Hm).
      destruct (awaiting x); simpl; apply Hk.
      * unfold startAutomatedResearch_resume. keeps_auto.
        -- unfold trackResearchProgress. destruct (negb _); reflexivity.
      * unfold processManualPdf_resume. keeps_auto.
        -- unfold trackPdfProcessing. destruct (negb _); reflexivity.
      * unfold trackResearchProgress_resume. keeps_auto;
          apply keeps_liftD; intros ? ?; reflexivity.
      * unfold trackPdfProcessing_resume. keeps_auto;
          apply keeps_liftD; intros ? ?; reflexivity.
Qed.

End Requests.

Section FormInvariant.
Context `{Engine}.

Lemma form_consistent_disableForm (disabled : bool) (d : DOM) :
  form_consistent (form (disableForm disabled d)).
Proof.
  unfold form_consistent. cbn. repeat split; destruct disabled;
    try reflexivity; try discriminate.
Qed.

Lemma dom_trackResearchProgress (st : App) : dom (trackResearchProgress st) = dom st.
Proof. unfold trackResearchProgress. destruct (negb _); reflexivity. Qed.

Lemma dom_trackPdfProcessing (st : App) : dom (trackPdfProcessing st) = dom st.
Proof. unfold trackPdfProcessing. destruct (negb _); reflexivity. Qed.

Lemma displayTables_keeps_form (tables : value) : keeps form (displayTables tables).
Proof. unfold displayTables. keeps_auto. Qed.

Lemma displayResults_form (payload : value) :
  stable (fun d => form_consistent (form d)) (displayResults payload).
Proof.
  unfold displayResults. apply stable_bind.
  - apply stable_modify. intros d _. apply form_consistent_disableForm.
  - intros _. apply (stable_keeps _ form);
      [| intros s s' E Hs; now rewrite E].
    keeps_auto. apply displayTables_keeps_form.
Qed.

Lemma displayFoundPdfs_form (pdfs : value) :
  stable (fun d => form_consistent (form d)) (displayFoundPdfs pdfs).
Proof.
  apply (stable_keeps _ form); [| intros s s' E Hs; now rewrite E].
  unfold displayFoundPdfs. keeps_auto.
Qed.

Ltac form_leaf :=
  first
    [ assumption
    | unfold form_ok; rewrite dom_trackResearchProgress; assumption
    | unfold form_ok; rewrite dom_trackPdfProcessing; assumption
    | apply (stable_liftD_dom (fun d => form_consistent (form d)));
      first [apply displayResults_form | apply displayFoundPdfs_form] ].

Lemma form_ok_resume (k : continuation) (o : fetch_outcome) (st : App) :
  form_ok st -> form_ok (resume k o st).
Proof.
  intros Hs. destruct k; simpl; unfold exec;
    match goal with |- form_ok (snd (?m st)) =>
      cut (stable form_ok m); [intros Hst; now apply Hst |]
    end.
  - unfold startAutomatedResearch_resume. repeat stable_step form_leaf.
  - unfold processManualPdf_resume. repeat stable_step form_leaf.
  - unfold trackResearchProgress_resume. repeat stable_step form_leaf.
  - unfold trackPdfProcessing_resume. repeat stable_step form_leaf.
Qed.

Lemma form_ok_step (st : App) (ev : event) (st' : App) :
  form_ok st -> step st ev = Some st' -> form_ok st'.
Proof.
  intros Hs Hst. destruct ev as [| | i | i o]; simpl in Hst.
  - injection Hst as Hst. subst st'. unfold startAutomatedResearch.
    destruct (_ =? _); [exact Hs |].
    exact (form_consistent_disableForm true
             (set_progressSection_display "block" (dom st))).
  - injection Hst as Hst. subst st'. unfold processManualPdf.
    destruct (manual_pdf_files _); [exact Hs |].
    exact (form_consistent_disableForm true
             (set_progressSection_display "block" (dom st))).
  - destruct (nth_error (timers st) i) as [t |] eqn:Hn; [| discriminate Hst].
    injection Hst as Hst. subst st'.
    destruct (timer_callback t); simpl; unfold form_ok.
    + now rewrite dom_trackResearchProgress.
    + now rewrite dom_trackPdfProcessing.
    + exact (form_consistent_disableForm false
               (set_progressSection_display "none" (dom st))).
  - destruct (nth_error (inflight st) i) as [x |] eqn:Hn; [| discriminate Hst].
    injection Hst as Hst. subst st'. apply form_ok_resume. exact Hs.
Qed.

(** X18.  In every state reached by any events the three controls of the
    research form (button, topic, count) are enabled or disabled together,
    and the button shows its loader in place of its text exactly while they
    are disabled. *)
Theorem form_stays_consistent (st st' : App) (evs : list event) :
  form_consistent (form (dom st)) ->
  steps st evs = Some st' ->
  form_consistent (form (dom st')).
Proof. intros Hs Hsteps. exact (steps_invariant form_ok form_ok_step evs st st' Hs Hsteps). Qed.

End FormInvariant.

(** The session leaves one timer, the hiding of the progress. *)
Lemma timers_have_fixed_delays_witness :
  exists st',
    steps (H := sample_engine) (type_topic "solar cells" initial_app) sample_session
    = Some st' /\
    timers st' = [{| timer_callback := HideProgress; timer_delay := 3000 |}] /\
    forallb timer_ok (timers st') = true.
Proof.
  eexists. split; [vm_compute; reflexivity |].
  split; [reflexivity |].
  match goal with |- forallb timer_ok (timers ?s) = true =>
    assert (Hs : steps (H := sample_engine) (type_topic "solar cells" initial_app)
                   sample_session = Some s) by (vm_compute; reflexivity);
    exact (timers_have_fixed_delays (H := sample_engine)
             (type_topic "solar cells" initial_app) s sample_session eq_refl Hs)
  end.
Defined.

(** After the first response of the session, one status request is in
    flight. *)
Lemma requests_are_the_four_calls_witness :
  exists st',
    steps (H := sample_engine) (type_topic "solar cells" initial_app)
      [SubmitResearchForm; ResponseArrives 0 (job_created "job-1")] = Some st' /\
    map (fun x => req_url (sent x)) (inflight st')
    = ["http://localhost:8000/research/status/job-1"] /\
    forallb (exchange_ok (apiBase st')) (inflight st') = true.
Proof.
  eexists. split; [vm_compute; reflexivity |].
  split; [reflexivity |].
  match goal with |- forallb _ (inflight ?s) = true =>
    assert (Hs : steps (H := sample_engine) (type_topic "solar cells" initial_app)
                   [SubmitResearchForm; ResponseArrives 0 (job_created "job-1")]
                 = Some s) by (vm_compute; reflexivity);
    destruct (requests_are_the_four_calls (H := sample_engine)
                (type_topic "solar cells" initial_app) s _ eq_refl Hs)
      as [Hok _]
  end.
  exact Hok.
Defined.

(** The form of the loaded page is consistent, and stays so through the
    session. *)
Lemma form_stays_consistent_witness :
  exists st',
    steps (H := sample_engine) (type_topic "solar cells" initial_app) sample_session
    = Some st' /\
    form_consistent (form (dom st')).
Proof.
  eexists. split; [vm_compute; reflexivity |].
  match goal with |- form_consistent (form (dom ?s)) =>
    assert (Hs : steps (H := sample_engine) (type_topic "solar cells" initial_app)
                   sample_session = Some s) by (vm_compute; reflexivity);
    apply (form_stays_consistent (H := sample_engine)
             (type_topic "solar cells" initial_app) s sample_session);
      [| exact Hs]
  end.
  unfold form_consistent. cbn. repeat split; discriminate.
Defined.

(** ** The topic, the found PDFs *)

Section MoreInputs.
Context `{Engine}.

(** Induction along the white-space characters in front of a string. *)
Lemma white_space_ind (P : string -> Prop) :
  (forall s, starts_with_white_space s = false -> P s) ->
  (forall c1 r1, white_space1 c1 = true -> P r1 -> P (String c1 r1)) ->
  (forall c1 c2 r2,
     white_space1 c1 = false -> white_space2 c1 c2 = true ->
     P r2 -> P (String c1 (String c2 r2))) ->
  (forall c1 c2 c3 r3,
     white_space1 c1 = false -> white_space2 c1 c2 = false ->
     white_space3 c1 c2 c3 = true ->
     P r3 -> P (String c1 (String c2 (String c3 r3)))) ->
  forall s, P s.
Proof.
  intros Hnone H1 H2 H3 s.
  assert (Hall : forall n t, (String.length t <= n)%nat -> P t).
  { induction n as [| n IH]; intros t Hlen.
    - destruct t; [apply Hnone; reflexivity | simpl in Hlen; lia].
    - destruct t as [| c1 r1]; [apply Hnone; reflexivity |].
      simpl in Hlen.
      destruct (white_space1 c1) eqn:E1; [apply H1; [exact E1 | apply IH; lia] |].
      destruct r1 as [| c2 r2]; [apply Hnone; simpl; now rewrite E1 |].
      simpl in Hlen.
      destruct (white_space2 c1 c2) eqn:E2;
        [apply H2; [exact E1 | exact E2 | apply IH; lia] |].
      destruct r2 as [| c3 r3]; [apply Hnone; simpl; now rewrite E1, E2 |].
      simpl in Hlen.
      destruct (white_space3 c1 c2 c3) eqn:E3;
        [apply H3; [exact E1 | exact E2 | exact E3 | apply IH; lia] |].
      apply Hnone. simpl. now rewrite E1, E2, E3. }
  apply (Hall (String.length s)). lia.
Qed.

Lemma trim_start_fixed (s : string) :
  starts_with_white_space s = false -> trim_start s = s.
Proof.
  destruct s as [| c1 [| c2 [| c3 r3]]]; cbn [starts_with_white_space trim_start];
    try reflexivity;
    repeat match goal with
           | |- context [white_space1 ?c] => destruct (white_space1 c)
           | |- context [white_space2 ?c ?c'] => destruct (white_space2 c c')
           | |- context [white_space3 ?c ?c' ?c''] => destruct (white_space3 c c' c'')
           end;
    cbn [orb andb]; intros Hs; try discriminate Hs; reflexivity.
Qed.

Lemma all_white_space_none (s : string) :
  starts_with_white_space s = false -> all_white_space s = (s =? "").
Proof.
  destruct s as [| c1 [| c2 [| c3 r3]]]; cbn [starts_with_white_space all_white_space];
    try reflexivity;
    repeat match goal with
           | |- context [white_space1 ?c] => destruct (white_space1 c)
           | |- context [white_space2 ?c ?c'] => destruct (white_space2 c c')
           | |- context [white_space3 ?c ?c' ?c''] => destruct (white_space3 c c' c'')
           end;
    cbn [orb andb]; intros Hs; try discriminate Hs; reflexivity.
Qed.

(** [trimStart] leaves nothing of a string of white space, and of any
    other string something that does not begin with white space. *)
Lemma trim_start_spec (s : string) :
  if all_white_space s then trim_start s = ""
  else trim_start s <> "" /\ starts_with_white_space (trim_start s) = false.
Proof.
  induction s as [s Hs | c1 r1 E1 IH | c1 c2 r2 E1 E2 IH | c1 c2 c3 r3 E1 E2 E3 IH]
    using white_space_ind.
  - rewrite (all_white_space_none s Hs), (trim_start_fixed s Hs).
    destruct (String.eqb_spec s ""); [assumption | split; assumption].
  - cbn [all_white_space trim_start]. rewrite E1. exact IH.
  - cbn [all_white_space trim_start]. rewrite E1, E2. exact IH.
  - cbn [all_white_space trim_start]. rewrite E1, E2, E3. exact IH.
Qed.

Lemma trim_end_cons (s u : string) (a : ascii) :
  trim_end s = String a u -> exists r, s = String a r /\ trim_end r = u.
Proof.
  destruct s as [| c r]; cbn [trim_end]; [discriminate |].
  destruct (is_white_space (String c (trim_end r))); [discriminate |].
  intros E. injection E as Ea Eu. subst c. now exists r.
Qed.

(** [trimEnd] leaves nothing only of a string that is empty or begins
    with white space. *)
Lemma trim_end_empty (s : string) :
  trim_end s = "" -> s = "" \/ starts_with_white_space s = true.
Proof.
  intros Ht. destruct s as [| c1 r1]; [now left |]. right. cbn [trim_end] in Ht.
  destruct (is_white_space (String c1 (trim_end r1))) eqn:Ew; [| discriminate Ht].
  cbn [starts_with_white_space].
  destruct (trim_end r1) as [| c2 u2] eqn:E2.
  - cbn [is_white_space] in Ew. now rewrite Ew.
  - apply trim_end_cons in E2 as (r2 & -> & E2).
    destruct u2 as [| c3 u3].
    + cbn [is_white_space] in Ew. rewrite Ew. apply orb_true_iff. right. reflexivity.
    + apply trim_end_cons in E2 as (r3 & -> & E3).
      destruct u3 as [| c4 u4]; [| discriminate Ew].
      cbn [is_white_space] in Ew. rewrite Ew.
      apply orb_true_iff. right. apply orb_true_iff. right. reflexivity.
Qed.

(** The topics that [trim] empties are the strings of white space. *)
Lemma trim_empty (s : string) : (trim s =? "") = all_white_space s.
Proof.
  unfold trim. pose proof (trim_start_spec s) as Hs.
  destruct (all_white_space s).
  - rewrite Hs. reflexivity.
  - destruct Hs as [Hne Hnw]. apply String.eqb_neq. intros Et.
    apply trim_end_empty in Et as [Et | Et]; congruence.
Qed.

(** X19.  [startAutomatedResearch] refuses exactly the topics made of
    white space only, the empty topic and a topic of no-break spaces among
    them: it alerts and does nothing else.  Any other topic is sent as
    typed, not trimmed, and without an alert. *)
Theorem startAutomatedResearch_blank_topic (st : App) :
  let topic := research_topic_value (form (dom st)) in
  (startAutomatedResearch st = alert "Please enter a research topic" st
   <-> all_white_space topic = true) /\
  (all_white_space topic = false ->
   alerts (startAutomatedResearch st) = alerts st /\
   inflight (startAutomatedResearch st)
   = (inflight st
      ++ [{| sent := {| req_method := "POST";
                        req_url := apiBase st ++ "/research/start";
                        req_body := JsonBody (VObj
                          [("topic", VStr topic);
                           ("max_pdfs",
                            VNum (parseInt (pdf_count_value (form (dom st)))))]) |};
             awaiting := AfterResearchStart |}])%list).
Proof.
  intros topic. unfold startAutomatedResearch. fold topic.
  rewrite trim_empty. destruct (all_white_space topic).
  - split; [split; reflexivity | discriminate].
  - split; [| intros _; split; reflexivity].
    split; [| discriminate]. intros E. exfalso.
    apply (f_equal (fun s => List.length (alerts s))) in E.
    cbn [alert alerts fetch set_inflight with_dom] in E.
    rewrite length_app in E. simpl in E. lia.
Qed.


End MoreInputs.

(** A topic of two no-break spaces is refused. *)
Lemma startAutomatedResearch_blank_topic_witness :
  alerts (startAutomatedResearch (H := sample_engine)
            (type_topic (no_break_space ++ no_break_space) initial_app))
  = ["Please enter a research topic"].
Proof.
  destruct (startAutomatedResearch_blank_topic (H := sample_engine)
              (type_topic (no_break_space ++ no_break_space) initial_app))
    as [[_ Hblank] _].
  rewrite Hblank; reflexivity.
Defined.


Section FoundList.
Context `{Engine}.

Lemma keeps_liftD_dom {A X : Type} (view : DOM -> X) (m : M DOM A) :
  keeps view m -> keeps (fun st => view (dom st)) (liftD m).
Proof.
  intros Hm st. unfold liftD. specialize (Hm (dom st)).
  destruct (m (dom st)) as [r d]. exact Hm.
Qed.

Lemma displayTables_keeps_progress (tables : value) :
  keeps progress (displayTables tables).
Proof. unfold displayTables. keeps_auto. Qed.

Lemma displayResults_keeps_found (payload : value) :
  keeps (fun d => foundPdfs_innerHTML (progress d)) (displayResults payload).
Proof.
  unfold displayResults. keeps_auto.
  exact (fun s => f_equal foundPdfs_innerHTML (displayTables_keeps_progress _ s)).
Qed.

Ltac found_leaf :=
  first
    [ rewrite dom_trackResearchProgress; reflexivity
    | rewrite dom_trackPdfProcessing; reflexivity
    | apply (keeps_liftD_dom (fun d => foundPdfs_innerHTML (progress d)));
      apply displayResults_keeps_found ].

(** X21.  The list of found PDFs is written by the response to a research
    status request and by nothing else: no other event (a submission, an
    upload, a timer, any other response) changes or clears it, so a new job
    starts under the list of the one before. *)
Theorem found_list_only_from_research_status (st st' : App) (ev : event) :
  research_status_response st ev = false ->
  step st ev = Some st' ->
  foundPdfs_innerHTML (progress (dom st')) = foundPdfs_innerHTML (progress (dom st)).
Proof.
  intros Hev Hst. destruct ev as [| | i | i o]; simpl in Hst, Hev.
  - injection Hst as Hst. subst st'. unfold startAutomatedResearch.
    destruct (_ =? _); reflexivity.
  - injection Hst as Hst. subst st'. unfold processManualPdf.
    destruct (manual_pdf_files _); reflexivity.
  - destruct (nth_error (timers st) i) as [t |]; [| discriminate Hst].
    injection Hst as Hst. subst st'. destruct (timer_callback t); simpl.
    + now rewrite dom_trackResearchProgress.
    + now rewrite dom_trackPdfProcessing.
    + reflexivity.
  - destruct (nth_error (inflight st) i) as [x |]; [| discriminate Hst].
    injection Hst as Hst. subst st'.
    assert (Hk : forall m : M App unit,
              keeps (fun s => foundPdfs_innerHTML (progress (dom s))) m ->
              foundPdfs_innerHTML (progress (dom
                (exec m (set_inflight (remove_nth i (inflight st)) st))))
              = foundPdfs_innerHTML (progress (dom st)))
      by (intros m Hm; unfold exec; now rewrite Hm).
    destruct (awaiting x); try discriminate Hev; simpl; apply Hk.
    + unfold startAutomatedResearch_resume. keeps_auto. found_leaf.
    + unfold processManualPdf_resume. keeps_auto. found_leaf.
    + unfold trackPdfProcessing_resume. keeps_auto. found_leaf.
Qed.

End FoundList.

(** A click on the upload button while a list is shown. *)
Lemma found_list_only_from_research_status_witness :
  let st := select_file "paper.pdf"
              (with_dom (set_foundPdfs_innerHTML "<strong>Found PDFs:</strong><br>x")
                 (@polling_app sample_engine)) in
  foundPdfs_innerHTML (progress (dom (processManualPdf (H := sample_engine) st)))
  = "<strong>Found PDFs:</strong><br>x".
Proof.
  cbv zeta.
  rewrite (found_list_only_from_research_status (H := sample_engine)
             (select_file "paper.pdf"
                (with_dom (set_foundPdfs_innerHTML "<strong>Found PDFs:</strong><br>x")
                   (@polling_app sample_engine)))
             _ ClickUpload eq_refl eq_refl).
  vm_compute. reflexivity.
Defined.
